(** * AstroPI: speed of the ISS from geotagged photographs

    A shallow embedding of [main.py] and the properties of its
    specification.

    Conventions of the embedding.
    - A Python [float] (and the rational an Exif reader hands out) is a
      real number of the Standard Library: arithmetic is exact, rounding
      is not modelled.  Every test the program makes on such a number
      ([== 0], [<], [>]) is the corresponding decision on [R].  A
      statement below about a distance or a speed is about this exact
      value.
    - Where the digits matter, for the average of the speeds and the
      line of [result.txt], a [float] is a binary64 number
      ([PrimFloat.float]) with its rounding, its infinities and its
      [nan]: module [Doubles].
    - A [datetime] is a number of microseconds, a [timedelta] the
      difference of two of them.
    - A raised exception is a value [Raise e]; [try]/[except] is a
      [match] on it.
    - The camera, the clock and the two [datetime] text conversions are
      not part of the program: they are the fields of an [environment].
    - [print] calls have no effect on anything the program reads back
      and are left out. *)

From Stdlib Require Import Floats.
From Stdlib Require Import Reals Lra Lia ZArith String Ascii.
From stdpp Require Import base option list gmap strings pretty.

Open Scope R_scope.

(** ** Exceptions and results *)

Inductive exn : Set :=
  | ZeroDivisionError
  | UnboundLocalError
  | FileNotFoundError
  | ValueError
  | IndexError
  | PiCameraError.

Inductive result (A : Type) : Type :=
  | Ok (a : A)
  | Raise (e : exn).
Arguments Ok {A} a.
Arguments Raise {A} e.

Definition rbind {A B} (r : result A) (k : A -> result B) : result B :=
  match r with
  | Ok a => k a
  | Raise e => Raise e
  end.

Notation "'let*' x := r 'in' k" := (rbind r (fun x => k))
  (at level 10, x pattern, r at level 100, k at level 200).

(** ** Numbers and time *)

(** The tests of the program on numbers, as decisions. *)
#[global] Instance Rlt_decision : RelDecision Rlt := Rlt_dec.
#[global] Instance Req_decision : RelDecision (@eq R) := Req_dec_T.

(** [x / y] on floats: Python raises instead of producing an infinity. *)
Definition py_truediv (x y : R) : result R :=
  if Req_dec_T y 0 then Raise ZeroDivisionError else Ok (x / y).

(** [math.sqrt]: a domain error below zero. *)
Definition math_sqrt (x : R) : result R :=
  if Rlt_dec x 0 then Raise ValueError else Ok (sqrt x).

(** [math.radians]. *)
Definition radians (x : R) : R := x * (PI / 180).

(** [math.atan2 y x], the angle of the point [(x, y)] in (-PI, PI]. *)
Definition atan2 (y x : R) : R :=
  if Rlt_dec 0 x then atan (y / x)
  else if Rlt_dec x 0 then
    (if Rlt_dec y 0 then atan (y / x) - PI else atan (y / x) + PI)
  else if Rlt_dec 0 y then PI / 2
  else if Rlt_dec y 0 then - (PI / 2)
  else 0.

Definition datetime : Set := Z.
Definition timedelta : Set := Z.

(** [timedelta.total_seconds()]. *)
Definition total_seconds (td : timedelta) : R := IZR td / 1000000.

(** ** [haversine_distance] *)

Definition radius_of_earth : R := 6378.137.
Definition mean_distance_from_iss_earth : R := 400.
Definition radius_from_centre_of_earth_to_iss : R :=
  radius_of_earth + mean_distance_from_iss_earth.

Definition haversine_distance (lat1 lon1 lat2 lon2 : R) : result R :=
  let lat1 := radians lat1 in
  let lon1 := radians lon1 in
  let lat2 := radians lat2 in
  let lon2 := radians lon2 in
  let dlat := lat2 - lat1 in
  let dlon := lon2 - lon1 in
  let a := sin (dlat / 2) ^ 2 + cos lat1 * cos lat2 * sin (dlon / 2) ^ 2 in
  let* sa := math_sqrt a in
  let* sb := math_sqrt (1 - a) in
  let c := 2 * atan2 sa sb in
  let distance := radius_from_centre_of_earth_to_iss * c in
  Ok distance.

(** The quantity [a] of the formula, as a function of the four angles
    in radians. *)
Definition haversine_a (lat1 lon1 lat2 lon2 : R) : R :=
  sin ((lat2 - lat1) / 2) ^ 2
  + cos lat1 * cos lat2 * sin ((lon2 - lon1) / 2) ^ 2.

(** ** [calculate_speed] *)

Definition calculate_speed (distance : R) (time_difference : timedelta)
  : result R :=
  let time_in_seconds := total_seconds time_difference in
  let* speed := py_truediv distance time_in_seconds in
  Ok (Rabs speed).

(** ** Exif metadata, as the reader hands it out *)

(** A value of the GPS sub-dictionary: text (a hemisphere letter), a
    tuple of numbers (degrees, minutes, seconds) or a single number. *)
Inductive gps_value : Type :=
  | GStr (s : string)
  | GTuple (l : list R)
  | GNum (x : R).

(** A value of the Exif dictionary: a sub-dictionary, text or an
    integer. *)
Inductive exif_value : Type :=
  | EDict (g : gmap Z gps_value)
  | EStr (s : string)
  | EInt (n : Z).

(** The numbers the Exif standard gives the tags (the reader's
    [ExifTags.TAGS] and [ExifTags.GPSTAGS] tables). *)
Definition GPSInfo : Z := 0x8825.
Definition DateTimeOriginal : Z := 0x9003.
Definition GPSLatitudeRef : Z := 1.
Definition GPSLatitude : Z := 2.
Definition GPSLongitudeRef : Z := 3.
Definition GPSLongitude : Z := 4.

(** A file is a JPEG image, with its size in bytes and what
    [_getexif()] returns for it ([None] when it carries no Exif), or a
    text file. *)
Inductive file : Type :=
  | Image (size : Z) (exif : option (gmap Z exif_value))
  | Text (content : string).

Definition file_size (f : file) : Z :=
  match f with
  | Image size _ => size
  | Text content => Z.of_nat (String.length content)
  end.

(** ** The world and what lies outside the program *)

Record world : Type := mkWorld {
  w_fs : gmap string file;     (* the files *)
  w_camera_open : bool;        (* the camera is held *)
  w_reads : nat;               (* calls of [datetime.now()] so far *)
  w_shots : nat                (* calls of [camera.capture] so far *)
}.

Record environment : Type := mkEnv {
  env_acquire : bool;                 (* [PiCamera()] returns *)
  env_configure : bool;               (* the four settings are accepted *)
  env_now : nat -> datetime;          (* the n-th clock reading *)
  env_capture : nat -> option file;   (* the file the n-th capture
                                         writes; [None]: it raises *)
  env_strftime : datetime -> string;  (* [strftime('%Y%m%d_%H%M%S')] *)
  env_strptime : string -> option datetime;
                                      (* [strptime(_, '%Y:%m:%d %H:%M:%S')];
                                         [None]: it raises *)
  env_base_folder : string            (* the folder of the script *)
}.

(** Computations that read and change the world and may raise. *)
Definition M (A : Type) : Type := world -> result A * world.

Definition ret {A} (a : A) : M A := fun w => (Ok a, w).
Definition raise {A} (e : exn) : M A := fun w => (Raise e, w).
Definition bind {A B} (c : M A) (k : A -> M B) : M B :=
  fun w =>
    match c w with
    | (Ok a, w') => k a w'
    | (Raise e, w') => (Raise e, w')
    end.
Definition lift {A} (r : result A) : M A := fun w => (r, w).
Definition get_fs : M (gmap string file) := fun w => (Ok (w_fs w), w).

Notation "'do' x <- c ;; k" := (bind c (fun x => k))
  (at level 10, x name, c at level 99, k at level 200).

Definition newline : string := String "010" EmptyString.

(** [f"{x:.2f}"]: the nearest multiple of 0.01, a tie going to the even
    one, written with the sign of [x], the integer part and two
    digits. *)
Definition round_half_even (x : R) : Z :=
  let n := Int_part x in
  let f := frac_part x in
  if Rlt_dec f (1 / 2) then n
  else if Rlt_dec (1 / 2) f then (n + 1)%Z
  else if Z.even n then n else (n + 1)%Z.

Definition format_2f (x : R) : string :=
  let h := round_half_even (Rabs x * 100) in
  (if Rlt_dec x 0 then "-" else "")
  +:+ pretty (h / 100)%Z +:+ "."
  +:+ pretty (h mod 100 / 10)%Z +:+ pretty (h mod 10)%Z.


Section Program.

Variable E : environment.

(** ** The operations of the camera, the clock and the file system *)

(** [PiCamera()]. *)
Definition PiCamera : M unit :=
  fun w =>
    if env_acquire E
    then (Ok tt, mkWorld (w_fs w) true (w_reads w) (w_shots w))
    else (Raise PiCameraError, w).

(** The assignments to [resolution], [framerate], [exposure_mode] and
    [awb_mode]. *)
Definition configure : M unit :=
  if env_configure E then ret tt else raise PiCameraError.

(** [camera.close()]. *)
Definition camera_close : M unit :=
  fun w => (Ok tt, mkWorld (w_fs w) false (w_reads w) (w_shots w)).

(** [datetime.now()]. *)
Definition datetime_now : M datetime :=
  fun w => (Ok (env_now E (w_reads w)),
            mkWorld (w_fs w) (w_camera_open w) (S (w_reads w)) (w_shots w)).

(** [camera.capture(image_file)]. *)
Definition camera_capture (image_file : string) : M unit :=
  fun w =>
    match env_capture E (w_shots w) with
    | Some f =>
        (Ok tt, mkWorld (<[image_file := f]> (w_fs w)) (w_camera_open w)
                        (w_reads w) (S (w_shots w)))
    | None =>
        (Raise PiCameraError,
         mkWorld (w_fs w) (w_camera_open w) (w_reads w) (S (w_shots w)))
    end.

(** [os.path.getsize(path)]. *)
Definition getsize (path : string) : M Z :=
  fun w =>
    match w_fs w !! path with
    | Some f => (Ok (file_size f), w)
    | None => (Raise FileNotFoundError, w)
    end.

(** [sleep(seconds)]: a negative length is refused. *)
Definition sleep (seconds : R) : M unit :=
  if Rlt_dec seconds 0 then raise ValueError else ret tt.

(** [os.remove(path)]. *)
Definition os_remove (path : string) : M unit :=
  fun w =>
    match w_fs w !! path with
    | Some _ =>
        (Ok tt, mkWorld (delete path (w_fs w)) (w_camera_open w)
                        (w_reads w) (w_shots w))
    | None => (Raise FileNotFoundError, w)
    end.

(** [open(path, 'w')] followed by one [write]. *)
Definition write_text (path content : string) : M unit :=
  fun w =>
    (Ok tt, mkWorld (<[path := Text content]> (w_fs w)) (w_camera_open w)
                    (w_reads w) (w_shots w)).

(** ** [capture_images] *)

(** The [while] loop.  Every turn adds one image, so [max_images] turns
    are enough; [fuel] counts them down ([capture_loop_fuel] below shows
    that the count never runs out). *)
Fixpoint capture_loop (fuel : nat) (image_path : string)
    (max_storage_size : R) (max_images : Z)
    (max_capture_duration capture_interval : R) (start_time : datetime)
    (images : list string) (timestamps : list datetime)
    (total_storage_size : R) : M (list string * list datetime) :=
  if decide (total_storage_size < max_storage_size
             /\ (Z.of_nat (length images) < max_images)%Z) then
    match fuel with
    | O => ret (images, timestamps)
    | S fuel =>
        do timestamp <- datetime_now ;;
        let image_name := "image_" +:+ env_strftime E timestamp +:+ ".jpg" in
        let image_file := image_path +:+ "/" +:+ image_name in
        do _ <- camera_capture image_file ;;
        let images := images ++ [image_file] in
        let timestamps := timestamps ++ [timestamp] in
        do size <- getsize image_file ;;
        let total_storage_size :=
          total_storage_size + IZR size / (1024 * 1024) in
        if Rlt_dec max_capture_duration
                   (total_seconds (timestamp - start_time)%Z)
        then ret (images, timestamps)
        else
          do _ <- sleep capture_interval ;;
          capture_loop fuel image_path max_storage_size max_images
            max_capture_duration capture_interval start_time
            images timestamps total_storage_size
    end
  else ret (images, timestamps).

(** What the [try] block does once [camera] is bound. *)
Definition capture_session (image_path : string) (max_storage_size : R)
    (max_images : Z) (max_capture_duration capture_interval : R)
  : M (list string * list datetime) :=
  do _ <- configure ;;
  do start_time <- datetime_now ;;
  capture_loop (Z.to_nat max_images) image_path max_storage_size max_images
    max_capture_duration capture_interval start_time [] [] 0.

(** [try] / [except Exception] / [finally].  When [PiCamera()] raises,
    the handler prepares [return None, None], but the name [camera] was
    never bound: [camera.close()] in the [finally] block raises
    [UnboundLocalError], which replaces the pending return.  Once
    [camera] is bound, every exception of the block is turned into
    [(None, None)] and the camera is closed on the way out. *)
Definition capture_images (image_path : string) (max_storage_size : R)
    (max_images : Z) (max_capture_duration capture_interval : R)
  : M (option (list string) * option (list datetime)) :=
  fun w =>
    match PiCamera w with
    | (Raise _, w1) => (Raise UnboundLocalError, w1)
    | (Ok _, w1) =>
        let (r, w2) := capture_session image_path max_storage_size
                         max_images max_capture_duration capture_interval w1 in
        let returned :=
          match r with
          | Ok (images, timestamps) => (Some images, Some timestamps)
          | Raise _ => (None, None)
          end in
        (do _ <- camera_close ;; ret returned) w2
    end.

(** ** [extract_coordinates_and_timestamp] *)

(** [v[i]] for the numbers of a tuple; anything else ends in an
    exception of the arithmetic that follows. *)
Definition component (v : gps_value) (i : nat) : option R :=
  match v with
  | GTuple l => l !! i
  | _ => None
  end.

(** [v == s] for a text [s]. *)
Definition is_text (v : gps_value) (s : string) : bool :=
  match v with
  | GStr s' => bool_decide (s' = s)
  | _ => false
  end.

(** The body of the [if], in the option monad: [None] is any exception
    raised on the way, which the enclosing [except] turns into [None]. *)
Definition read_geotag (exif_data : gmap Z exif_value)
  : option (R * R * datetime) :=
  match exif_data !! 0x8825%Z with
  | Some (EDict gps_info) =>
      g2 ← gps_info !! 2%Z;
      d2 ← component g2 0; m2 ← component g2 1; s2 ← component g2 2;
      let latitude := d2 + m2 / 60 + s2 / 3600 in
      g4 ← gps_info !! 4%Z;
      d4 ← component g4 0; m4 ← component g4 1; s4 ← component g4 2;
      let longitude := d4 + m4 / 60 + s4 / 3600 in
      g3 ← gps_info !! 3%Z;
      let latitude := if is_text g3 "S" then - latitude else latitude in
      g1 ← gps_info !! 1%Z;
      let longitude := if is_text g1 "W" then - longitude else longitude in
      match exif_data !! 0x9003%Z with
      | Some (EStr timestamp_str) =>
          timestamp ← env_strptime E timestamp_str;
          Some (latitude, longitude, timestamp)
      | _ => None
      end
  | _ => None
  end.

Definition extract_coordinates_and_timestamp (fs : gmap string file)
    (image_path : string) : option (R * R * datetime) :=
  match fs !! image_path with
  | Some (Image _ (Some exif_data)) =>
      if decide (is_Some (exif_data !! 0x8825%Z)
                 /\ is_Some (exif_data !! 0x9003%Z))
      then read_geotag exif_data
      else None
  | _ => None
  end.

(** ** [log_average_speed_to_txt] *)

Definition log_average_speed_to_txt (avg_speed : R) (txt_file : string)
  : M unit :=
  write_text txt_file (format_2f avg_speed +:+ " km/s" +:+ newline).

(** ** [main] *)

(** One line of [speed_data]. *)
Record entry : Type := mkEntry {
  e_image1 : string;
  e_image2 : string;
  e_distance : R;
  e_seconds : R;
  e_speed : R
}.

(** The body of the [for] loop at index [i]: the entry it appends, if
    any. *)
Definition pair_sample (fs : gmap string file) (images : list string)
    (i : nat) : result (option entry) :=
  match images !! (i - 1)%nat, images !! i with
  | Some image1, Some image2 =>
      let data1 := extract_coordinates_and_timestamp fs image1 in
      let data2 := extract_coordinates_and_timestamp fs image2 in
      match data1, data2 with
      | Some (latitude1, longitude1, timestamp1),
        Some (latitude2, longitude2, timestamp2) =>
          if decide (image1 = image2) then Ok None
          else
            let* d := haversine_distance latitude1 longitude1
                        latitude2 longitude2 in
            if Req_dec_T d 0 then Ok None
            else if Req_dec_T (total_seconds (timestamp2 - timestamp1)%Z) 0
            then Ok None
            else
              let* distance := haversine_distance latitude1 longitude1
                                 latitude2 longitude2 in
              let time_difference := (timestamp2 - timestamp1)%Z in
              let* speed := calculate_speed distance time_difference in
              Ok (Some (mkEntry image1 image2 distance
                          (total_seconds time_difference) speed))
      | _, _ => Ok None
      end
  | _, _ => Raise IndexError
  end.

(** The [for] loop over the indices [indices], from the entries
    [speed_data] gathered so far. *)
Fixpoint for_pairs (fs : gmap string file) (images : list string)
    (indices : list nat) (speed_data : list entry) : result (list entry) :=
  match indices with
  | [] => Ok speed_data
  | i :: indices =>
      let* sample := pair_sample fs images i in
      for_pairs fs images indices
        (match sample with
         | Some e => speed_data ++ [e]
         | None => speed_data
         end)
  end.

(** [for i in range(1, len(images))]. *)
Definition aggregation_loop (fs : gmap string file) (images : list string)
  : result (list entry) :=
  for_pairs fs images (seq 1 (length images - 1)) [].

(** [sum] of a sequence of numbers. *)
Definition py_sum (l : list R) : R := foldl Rplus 0 l.

(** [while len(images) > 42: os.remove(images.pop(0))]; the images that
    are left. *)
Fixpoint retention_cleanup (images : list string) : M (list string) :=
  if (42 <? length images)%nat then
    match images with
    | oldest :: images => do _ <- os_remove oldest ;; retention_cleanup images
    | [] => ret []
    end
  else ret images.

Definition txt_file : string := env_base_folder E +:+ "/result.txt".

(** [main] from the [if images and timestamps] on: [None] and the empty
    list both count as false. *)
Definition process (captured : option (list string) * option (list datetime))
  : M unit :=
  match captured with
  | (Some ((_ :: _) as images), Some (_ :: _)) =>
      do fs <- get_fs ;;
      do speed_data <- lift (aggregation_loop fs images) ;;
      do avg_speed <- lift (py_truediv (py_sum (map e_speed speed_data))
                                    (INR (length speed_data))) ;;
      let haversine_error_correction_percentage := 0.05 in
      let error_corrected_average_speed :=
        avg_speed * (1 + haversine_error_correction_percentage) in
      do _ <- log_average_speed_to_txt error_corrected_average_speed txt_file ;;
      do _ <- retention_cleanup images ;;
      ret tt
  | _ => ret tt
  end.

Definition main : M unit :=
  let image_save_path := env_base_folder E in
  do captured <- capture_images image_save_path 250 42 480 5 ;;
  process captured.

End Program.

(** ** The average and its line, in double precision *)

(** Python's [float] is an IEEE 754 binary64 number.  The digits of the
    line of [result.txt] depend on its rounding and on its special
    values, so the statements of lines 221 to 231 of [main] and of
    [log_average_speed_to_txt] are taken over [PrimFloat.float], the
    binary64 numbers of the Standard Library, here. *)

Set Warnings "-inexact-float".

Module Doubles.

(** One line of [speed_data]. *)
Record entry : Type := mkEntry {
  e_image1 : string;
  e_image2 : string;
  e_distance : float;
  e_seconds : float;
  e_speed : float
}.

(** [sum] of a sequence of floats: the numbers are added from the left,
    starting at 0, each addition rounded (CPython up to 3.11; from 3.12
    on [sum] also carries the rounding errors along). *)
Definition py_sum (l : list float) : float := foldl PrimFloat.add 0%float l.

(** [x / n] for a float [x] and an [int] [n] that is a length, so
    below 2 ^ 63: [n] is converted to the float nearest to it, and a
    zero divisor raises. *)
Definition py_truediv_len (x : float) (n : nat) : result float :=
  match n with
  | O => Raise ZeroDivisionError
  | S _ => Ok (x / PrimFloat.of_uint63 (Uint63.of_Z (Z.of_nat n)))%float
  end.

(** The integer nearest to [m * 2 ^ e], a tie going to the even one. *)
Definition nearest_even (m e : Z) : Z :=
  if (0 <=? e)%Z then (m * 2 ^ e)%Z
  else
    let k := (2 ^ (- e))%Z in
    let q := (m / k)%Z in
    let r := (m mod k)%Z in
    if (2 * r <? k)%Z then q
    else if (k <? 2 * r)%Z then (q + 1)%Z
    else if Z.even q then q else (q + 1)%Z.

(** A sign, an integer part and two digits, from a number of
    hundredths. *)
Definition two_decimals (negative : bool) (h : Z) : string :=
  (if negative then "-" else "")
  +:+ pretty (h / 100)%Z +:+ "."
  +:+ pretty (h mod 100 / 10)%Z +:+ pretty (h mod 10)%Z.

(** [f"{x:.2f}"]: the exact value of [x] rounded to the nearest multiple
    of 0.01, a tie going to the even one; [nan] and the infinities are
    written by name. *)
Definition format_2f (x : float) : string :=
  match Prim2SF x with
  | S754_nan => "nan"
  | S754_infinity negative => (if negative then "-" else "") +:+ "inf"
  | S754_zero negative => two_decimals negative 0
  | S754_finite negative m e =>
      two_decimals negative (nearest_even (100 * Z.pos m) e)
  end.

Definition log_average_speed_to_txt (avg_speed : float) (txt_file : string)
  : M unit :=
  write_text txt_file (format_2f avg_speed +:+ " km/s" +:+ newline).

(** Lines 221 to 231 of [main]: the average of [speed_data], its
    correction and the call that writes it. *)
Definition log_corrected_average (speed_data : list entry)
    (txt_file : string) : M unit :=
  do avg_speed <- lift (py_truediv_len (py_sum (map e_speed speed_data))
                                       (length speed_data)) ;;
  let haversine_error_correction_percentage := 0.05%float in
  let error_corrected_average_speed :=
    (avg_speed * (1 + haversine_error_correction_percentage))%float in
  log_average_speed_to_txt error_corrected_average_speed txt_file.

End Doubles.

(** Two samples, of 7 and 6 km/s, and a sample that is not a
    number. *)
Definition two_speeds : list Doubles.entry :=
  [ Doubles.mkEntry "/home/astro/image_1.jpg" "/home/astro/image_2.jpg"
      35 5 7;
    Doubles.mkEntry "/home/astro/image_2.jpg" "/home/astro/image_3.jpg"
      30 5 6 ].


(** ** Notions used to state properties *)

(** The name [capture_images] gives the picture taken at [timestamp]. *)
Definition image_file_name (E : environment) (image_path : string)
    (timestamp : datetime) : string :=
  image_path +:+ "/" +:+ ("image_" +:+ env_strftime E timestamp +:+ ".jpg").

(** The size, in megabytes, of the file the n-th capture writes. *)
Definition shot_megabytes (E : environment) (n : nat) : R :=
  match env_capture E n with
  | Some f => IZR (file_size f) / (1024 * 1024)
  | None => 0
  end.

(** The size of [count] captures from the n-th on. *)
Definition shots_megabytes (E : environment) (n count : nat) : R :=
  foldr Rplus 0 (map (shot_megabytes E) (seq n count)).

(** ** Sample sessions *)

(** The Exif dictionary of a geotagged photograph. *)
Definition sample_exif (lat_ref : string) (lat : list R) (lon_ref : string)
    (lon : list R) (taken : string) : gmap Z exif_value :=
  {[ GPSInfo := EDict {[ GPSLatitudeRef := GStr lat_ref;
                         GPSLatitude := GTuple lat;
                         GPSLongitudeRef := GStr lon_ref;
                         GPSLongitude := GTuple lon ]};
     DateTimeOriginal := EStr taken ]}.

(** A parser that knows two instants ten seconds apart. *)
Definition sample_strptime (s : string) : option datetime :=
  if decide (s = "2023:05:01 12:00:00") then Some 0%Z
  else if decide (s = "2023:05:01 12:00:10") then Some 10000000%Z
  else None.

Definition sample_strftime (t : datetime) : string := pretty (t / 1000000)%Z.

(** The clock is read at the start, again at once for the first image,
    and ten minutes later for the second one. *)
Definition sample_clock (n : nat) : datetime :=
  match n with
  | O => 0%Z
  | S O => 1%Z
  | _ => 600000000%Z
  end.

(** A clock that gives the same reading twice in a row. *)
Definition stalled_clock (n : nat) : datetime :=
  match n with
  | O => 0%Z
  | S O => 0%Z
  | _ => 6000000%Z
  end.

(** A photograph taken on the equator at the longitude [lon] East. *)
Definition shot_at (lon : R) (taken : string) : file :=
  Image 2000000 (Some (sample_exif "N" [0; 0; 0] "E" [lon; 0; 0] taken)).

(** The first photograph is taken at 0 degrees East, the later ones at
    1 degree East, ten seconds after the first one. *)
Definition moving_shots (n : nat) : option file :=
  match n with
  | O => Some (shot_at 0 "2023:05:01 12:00:00")
  | _ => Some (shot_at 1 "2023:05:01 12:00:10")
  end.

(** Every photograph is taken at the same place. *)
Definition still_shots (n : nat) : option file :=
  match n with
  | O => Some (shot_at 0 "2023:05:01 12:00:00")
  | _ => Some (shot_at 0 "2023:05:01 12:00:10")
  end.

Definition moving_env : environment :=
  mkEnv true true sample_clock moving_shots sample_strftime sample_strptime
        "/home/astro".

Definition still_env : environment :=
  mkEnv true true sample_clock still_shots sample_strftime sample_strptime
        "/home/astro".

Definition stalled_clock_env : environment :=
  mkEnv true true stalled_clock moving_shots sample_strftime sample_strptime
        "/home/astro".

(** No camera is attached: [PiCamera()] raises. *)
Definition no_camera_env : environment :=
  mkEnv false true sample_clock moving_shots sample_strftime sample_strptime
        "/home/astro".

Definition empty_world : world := mkWorld ∅ false 0 0.

(** The two pictures of a session with [sample_clock], and the files
    they leave behind. *)
Definition session_images : list string :=
  ["/home/astro/image_0.jpg"; "/home/astro/image_600.jpg"].

Definition moving_fs : gmap string file :=
  <["/home/astro/image_600.jpg" := shot_at 1 "2023:05:01 12:00:10"]>
    (<["/home/astro/image_0.jpg" := shot_at 0 "2023:05:01 12:00:00"]> ∅).

Definition still_fs : gmap string file :=
  <["/home/astro/image_600.jpg" := shot_at 0 "2023:05:01 12:00:10"]>
    (<["/home/astro/image_0.jpg" := shot_at 0 "2023:05:01 12:00:00"]> ∅).

(** Forty-three pictures, one more than are kept. *)
Definition many_images : list string :=
  (fun k : nat => "/home/astro/image_" +:+ pretty k +:+ ".jpg") <$> seq 0 43.

Definition many_fs : gmap string file :=
  list_to_map ((fun path => (path, Image 2000000 None)) <$> many_images).

(** The length of one degree of the equator at the height of the
    station, as [haversine_distance] computes it. *)
Definition equator_degree : R :=
  let a := haversine_a (radians 0) (radians 0) (radians 0) (radians 1) in
  radius_from_centre_of_earth_to_iss * (2 * atan2 (sqrt a) (sqrt (1 - a))).

(** The entry of the session that moves by one degree in ten seconds. *)
Definition moving_entry : entry :=
  mkEntry "/home/astro/image_0.jpg" "/home/astro/image_600.jpg"
    equator_degree (total_seconds 10000000%Z)
    (Rabs (equator_degree / total_seconds 10000000%Z)).

(** A photograph taken over Rio de Janeiro: 22°54'24'' South,
    43°10'22'' West. *)
Definition south_west_exif : gmap Z exif_value :=
  sample_exif "S" [22; 54; 24] "W" [43; 10; 22] "2023:05:01 12:00:00".

Definition south_west_fs : gmap string file :=
  {[ "south_west.jpg" := Image 2000000 (Some south_west_exif) ]}.

(** A clock that is read ten minutes after the start for the first
    image already. *)
Definition late_clock (n : nat) : datetime :=
  match n with
  | O => 0%Z
  | _ => 600000000%Z
  end.

Definition late_env : environment :=
  mkEnv true true late_clock moving_shots sample_strftime sample_strptime
        "/home/astro".

(** The camera is there but refuses its settings. *)
Definition refusing_env : environment :=
  mkEnv true false sample_clock moving_shots sample_strftime sample_strptime
        "/home/astro".

(** * Properties *)

(** ** The numeric functions *)

Lemma total_seconds_eq0 (td : timedelta) : total_seconds td = 0 <-> td = 0%Z.
Proof.
  unfold total_seconds. split.
  - intros H. apply eq_IZR. lra.
  - intros ->. lra.
Qed.

Lemma py_truediv_ok (x y : R) : y <> 0 -> py_truediv x y = Ok (x / y).
Proof. intros H. unfold py_truediv. destruct (Req_dec_T y 0); congruence. Qed.

Lemma py_truediv_zero (x : R) : py_truediv x 0 = Raise ZeroDivisionError.
Proof. unfold py_truediv. destruct (Req_dec_T 0 0); congruence. Qed.

Lemma math_sqrt_ok (x : R) : 0 <= x -> math_sqrt x = Ok (sqrt x).
Proof. intros H. unfold math_sqrt. destruct (Rlt_dec x 0); [lra | reflexivity]. Qed.

(** In exact arithmetic the haversine quantity lies in [0, 1]: it is
    [sin² p · cos² d + cos² q · sin² d] for the half difference [p] and
    the half sum [q] of the latitudes and half the longitude difference
    [d]. *)
Lemma haversine_a_bounds (lat1 lon1 lat2 lon2 : R) :
  0 <= haversine_a lat1 lon1 lat2 lon2 <= 1.
Proof.
  unfold haversine_a.
  set (p := (lat2 - lat1) / 2). set (d := (lon2 - lon1) / 2).
  set (q := (lat2 + lat1) / 2).
  replace lat1 with (q - p) by (unfold p, q; lra).
  replace lat2 with (q + p) by (unfold p, q; lra).
  rewrite cos_minus, cos_plus.
  pose proof (sin2_cos2 p) as Hp. pose proof (sin2_cos2 q) as Hq.
  pose proof (sin2_cos2 d) as Hd. unfold Rsqr in Hp, Hq, Hd.
  set (sp := sin p) in *. set (cp := cos p) in *.
  set (sq := sin q) in *. set (cq := cos q) in *.
  set (sd := sin d) in *. set (cd := cos d) in *.
  assert (E : sp ^ 2 + (cq * cp + sq * sp) * (cq * cp - sq * sp) * sd ^ 2
              = sp * sp * (cd * cd) + cq * cq * (sd * sd)).
  { replace (cd * cd) with (1 - sd * sd) by lra.
    assert (E1 : (cq * cp + sq * sp) * (cq * cp - sq * sp)
                 = cq * cq * (cp * cp) - sq * sq * (sp * sp)) by ring.
    rewrite E1.
    replace (cp * cp) with (1 - sp * sp) by lra.
    replace (sq * sq) with (1 - cq * cq) by lra. ring. }
  rewrite E.
  assert (0 <= sp * sp <= 1) by nra.
  assert (0 <= cq * cq <= 1) by nra.
  assert (0 <= sd * sd <= 1) by nra.
  assert (0 <= cd * cd <= 1) by nra.
  split; nra.
Qed.

(** The distance over real numbers: there both square roots are taken
    of numbers that are not negative.  (A sum rounded in double
    precision can leave [1 - a] below zero for two points that are
    nearly opposite; no statement here says that the program returns
    on such points.) *)
Lemma haversine_distance_total (lat1 lon1 lat2 lon2 : R) :
  haversine_distance lat1 lon1 lat2 lon2 =
  Ok (radius_from_centre_of_earth_to_iss *
      (2 * atan2
         (sqrt (haversine_a (radians lat1) (radians lon1)
                            (radians lat2) (radians lon2)))
         (sqrt (1 - haversine_a (radians lat1) (radians lon1)
                                (radians lat2) (radians lon2))))).
Proof.
  unfold haversine_distance. cbv zeta.
  change (sin ((radians lat2 - radians lat1) / 2) ^ 2
          + cos (radians lat1) * cos (radians lat2)
            * sin ((radians lon2 - radians lon1) / 2) ^ 2)
    with (haversine_a (radians lat1) (radians lon1)
            (radians lat2) (radians lon2)).
  pose proof (haversine_a_bounds (radians lat1) (radians lon1)
                (radians lat2) (radians lon2)) as [H0 H1].
  rewrite !math_sqrt_ok by lra. reflexivity.
Qed.

Lemma haversine_a_same (lat lon : R) : haversine_a lat lon lat lon = 0.
Proof.
  unfold haversine_a.
  replace ((lat - lat) / 2) with 0 by lra.
  replace ((lon - lon) / 2) with 0 by lra.
  rewrite sin_0. ring.
Qed.

Lemma atan2_0_1 : atan2 0 1 = 0.
Proof.
  unfold atan2. destruct (Rlt_dec 0 1); [| lra].
  replace (0 / 1) with 0 by lra. apply atan_0.
Qed.

(** A point is at distance exactly 0 from itself. *)
Lemma haversine_distance_same (lat lon : R) :
  haversine_distance lat lon lat lon = Ok 0.
Proof.
  rewrite haversine_distance_total, haversine_a_same.
  rewrite Rminus_0_r, sqrt_0, sqrt_1, atan2_0_1. f_equal. ring.
Qed.

(** ** [calculate_speed] *)

(** C6: for every distance and every duration that is not zero,
    [calculate_speed] returns the absolute value of the quotient, which
    is not negative whatever the signs of the two are. *)
Theorem calculate_speed_abs (d : R) (t : timedelta) :
  total_seconds t <> 0 ->
  calculate_speed d t = Ok (Rabs (d / total_seconds t))
  /\ 0 <= Rabs (d / total_seconds t).
Proof.
  intros Ht. unfold calculate_speed.
  rewrite py_truediv_ok by assumption. split; [reflexivity | apply Rabs_pos].
Qed.

Lemma calculate_speed_abs_witness :
  total_seconds (-2000000)%Z <> 0
  /\ calculate_speed 15 (-2000000)%Z
     = Ok (Rabs (15 / total_seconds (-2000000)%Z))
  /\ 0 <= Rabs (15 / total_seconds (-2000000)%Z).
Proof.
  assert (H : total_seconds (-2000000)%Z <> 0) by (unfold total_seconds; lra).
  split; [exact H | exact (calculate_speed_abs 15 (-2000000)%Z H)].
Defined.

(** C7: with a duration of zero [calculate_speed] raises
    [ZeroDivisionError] for every distance; no number is returned. *)
Theorem calculate_speed_zero_duration (d : R) :
  calculate_speed d 0%Z = Raise ZeroDivisionError.
Proof.
  unfold calculate_speed.
  replace (total_seconds 0%Z) with 0 by (unfold total_seconds; lra).
  rewrite py_truediv_zero. reflexivity.
Qed.

(** ** [extract_coordinates_and_timestamp] *)

Lemma is_text_GStr (s t : string) : is_text (GStr s) t = bool_decide (s = t).
Proof. reflexivity. Qed.

(** What the function returns for a photograph whose metadata has the
    two keys, the two triples, the two hemisphere letters and a
    timestamp that parses: the latitude is negated when tag 3 is "S",
    the longitude when tag 1 is "W". *)
Lemma extract_well_formed (E : environment) (fs : gmap string file)
    (path : string) (size : Z) (exif_data : gmap Z exif_value)
    (gps_info : gmap Z gps_value) (tag1 tag3 : gps_value)
    (d2 m2 s2 d4 m4 s4 : R) (taken : string) (ts : datetime) :
  fs !! path = Some (Image size (Some exif_data)) ->
  exif_data !! GPSInfo = Some (EDict gps_info) ->
  exif_data !! DateTimeOriginal = Some (EStr taken) ->
  gps_info !! 1%Z = Some tag1 ->
  gps_info !! 2%Z = Some (GTuple [d2; m2; s2]) ->
  gps_info !! 3%Z = Some tag3 ->
  gps_info !! 4%Z = Some (GTuple [d4; m4; s4]) ->
  env_strptime E taken = Some ts ->
  extract_coordinates_and_timestamp E fs path =
  Some (if is_text tag3 "S" then - (d2 + m2 / 60 + s2 / 3600)
        else d2 + m2 / 60 + s2 / 3600,
        if is_text tag1 "W" then - (d4 + m4 / 60 + s4 / 3600)
        else d4 + m4 / 60 + s4 / 3600,
        ts).
Proof.
  unfold GPSInfo, DateTimeOriginal.
  intros Hf Hg Ht H1 H2 H3 H4 Hp.
  unfold extract_coordinates_and_timestamp. rewrite Hf.
  rewrite decide_True by (rewrite Hg, Ht; eauto).
  unfold read_geotag. rewrite Hg, Ht, H2. simpl.
  rewrite H4. simpl. rewrite H3. simpl. rewrite H1. simpl.
  rewrite Hp. reflexivity.
Qed.

Lemma sample_exif_lookup (lat_ref : string) (lat : list R) (lon_ref : string)
    (lon : list R) (taken : string) :
  let gps_info : gmap Z gps_value :=
    {[ GPSLatitudeRef := GStr lat_ref; GPSLatitude := GTuple lat;
       GPSLongitudeRef := GStr lon_ref; GPSLongitude := GTuple lon ]} in
  sample_exif lat_ref lat lon_ref lon taken !! GPSInfo = Some (EDict gps_info)
  /\ sample_exif lat_ref lat lon_ref lon taken !! DateTimeOriginal
     = Some (EStr taken)
  /\ gps_info !! 1%Z = Some (GStr lat_ref)
  /\ gps_info !! 2%Z = Some (GTuple lat)
  /\ gps_info !! 3%Z = Some (GStr lon_ref)
  /\ gps_info !! 4%Z = Some (GTuple lon).
Proof.
  unfold sample_exif, GPSInfo, DateTimeOriginal, GPSLatitudeRef, GPSLatitude,
    GPSLongitudeRef, GPSLongitude.
  repeat split; by simplify_map_eq.
Qed.

(** The photographs of the sample sessions. *)
Lemma extract_sample (E : environment) (fs : gmap string file) (path : string)
    (size : Z) (lat_ref lon_ref : string) (d2 m2 s2 d4 m4 s4 : R)
    (taken : string) (ts : datetime) :
  fs !! path = Some (Image size (Some (sample_exif lat_ref [d2; m2; s2]
                                         lon_ref [d4; m4; s4] taken))) ->
  env_strptime E taken = Some ts ->
  extract_coordinates_and_timestamp E fs path =
  Some (if bool_decide (lon_ref = "S") then - (d2 + m2 / 60 + s2 / 3600)
        else d2 + m2 / 60 + s2 / 3600,
        if bool_decide (lat_ref = "W") then - (d4 + m4 / 60 + s4 / 3600)
        else d4 + m4 / 60 + s4 / 3600,
        ts).
Proof.
  intros Hf Hp.
  destruct (sample_exif_lookup lat_ref [d2; m2; s2] lon_ref [d4; m4; s4] taken)
    as (Hg & Ht & H1 & H2 & H3 & H4).
  rewrite (extract_well_formed E fs path size _ _ _ _ _ _ _ _ _ _ _ ts
             Hf Hg Ht H1 H2 H3 H4 Hp).
  rewrite !is_text_GStr. reflexivity.
Qed.

(** C1 fails on the code: the latitude letter is looked up under tag 3
    (the longitude reference) and the longitude letter under tag 1 (the
    latitude reference).  For a photograph tagged South and West neither
    test fires, and both coordinates come back positive. *)
Theorem extract_south_west_not_negated :
  south_west_exif !! GPSInfo
  = Some (EDict {[ GPSLatitudeRef := GStr "S";
                   GPSLatitude := GTuple [22; 54; 24];
                   GPSLongitudeRef := GStr "W";
                   GPSLongitude := GTuple [43; 10; 22] ]})
  /\ extract_coordinates_and_timestamp moving_env south_west_fs
       "south_west.jpg"
     = Some (22 + 54 / 60 + 24 / 3600, 43 + 10 / 60 + 22 / 3600, 0%Z).
Proof.
  split.
  - apply sample_exif_lookup.
  - unfold south_west_fs, south_west_exif.
    rewrite (extract_sample moving_env _ _ 2000000 "S" "W" 22 54 24 43 10 22
               "2023:05:01 12:00:00" 0%Z);
      [reflexivity | by simplify_map_eq | reflexivity].
Qed.

(** ** [capture_images] *)

Section Capture.

Variable E : environment.
Variables (image_path : string) (max_storage_size : R) (max_images : Z)
          (max_capture_duration capture_interval : R) (start_time : datetime).

(** The loop is left when a budget is used up. *)
Lemma capture_loop_stop (fuel : nat) (images : list string)
    (timestamps : list datetime) (total_storage_size : R) (w : world) :
  ~ (total_storage_size < max_storage_size
     /\ (Z.of_nat (length images) < max_images)%Z) ->
  capture_loop E fuel image_path max_storage_size max_images
    max_capture_duration capture_interval start_time
    images timestamps total_storage_size w
  = (Ok (images, timestamps), w).
Proof.
  intros H. destruct fuel; simpl; rewrite decide_False by assumption;
    reflexivity.
Qed.

(** One turn of the loop, with the operations on the world carried
    out. *)
Lemma capture_loop_unfold (fuel : nat) (images : list string)
    (timestamps : list datetime) (total_storage_size : R) (w : world) :
  total_storage_size < max_storage_size ->
  (Z.of_nat (length images) < max_images)%Z ->
  let timestamp := env_now E (w_reads w) in
  let image_file :=
    image_path +:+ "/" +:+ ("image_" +:+ env_strftime E timestamp +:+ ".jpg") in
  capture_loop E (S fuel) image_path max_storage_size max_images
    max_capture_duration capture_interval start_time
    images timestamps total_storage_size w
  = match env_capture E (w_shots w) with
    | None =>
        (Raise PiCameraError,
         mkWorld (w_fs w) (w_camera_open w) (S (w_reads w)) (S (w_shots w)))
    | Some f =>
        let w' := mkWorld (<[image_file := f]> (w_fs w)) (w_camera_open w)
                          (S (w_reads w)) (S (w_shots w)) in
        if decide (max_capture_duration
                   < total_seconds (timestamp - start_time)%Z)
        then (Ok (images ++ [image_file], timestamps ++ [timestamp]), w')
        else if decide (capture_interval < 0) then (Raise ValueError, w')
        else capture_loop E fuel image_path max_storage_size max_images
               max_capture_duration capture_interval start_time
               (images ++ [image_file]) (timestamps ++ [timestamp])
               (total_storage_size + IZR (file_size f) / (1024 * 1024)) w'
    end.
Proof.
  intros Hs Hi timestamp image_file.
  cbn [capture_loop]. rewrite decide_True by (split; assumption).
  unfold bind at 1. unfold datetime_now at 1.
  unfold bind at 1. unfold camera_capture at 1. cbn [w_shots].
  fold timestamp. fold image_file.
  destruct (env_capture E (w_shots w)) as [f |]; [| reflexivity].
  unfold bind at 1. unfold getsize at 1. cbn [w_fs].
  rewrite lookup_insert_eq.
  unfold decide, decide_rel, Rlt_decision.
  destruct (Rlt_dec max_capture_duration _); [reflexivity |].
  unfold bind at 1. unfold sleep.
  destruct (Rlt_dec capture_interval 0); reflexivity.
Qed.

(** The same turn when the picture is taken, on a world given by its
    parts. *)
Lemma capture_loop_turn (fuel : nat) (images : list string)
    (timestamps : list datetime) (total_storage_size : R)
    (fs : gmap string file) (cam : bool) (reads shots : nat) (f : file) :
  total_storage_size < max_storage_size ->
  (Z.of_nat (length images) < max_images)%Z ->
  env_capture E shots = Some f ->
  capture_loop E (S fuel) image_path max_storage_size max_images
    max_capture_duration capture_interval start_time
    images timestamps total_storage_size (mkWorld fs cam reads shots)
  = if decide (max_capture_duration
               < total_seconds (env_now E reads - start_time)%Z)
    then (Ok (images ++ [image_path +:+ "/" +:+
                         ("image_" +:+ env_strftime E (env_now E reads)
                          +:+ ".jpg")],
              timestamps ++ [env_now E reads]),
          mkWorld (<[image_path +:+ "/" +:+
                     ("image_" +:+ env_strftime E (env_now E reads)
                      +:+ ".jpg") := f]> fs) cam (S reads) (S shots))
    else if decide (capture_interval < 0)
    then (Raise ValueError,
          mkWorld (<[image_path +:+ "/" +:+
                     ("image_" +:+ env_strftime E (env_now E reads)
                      +:+ ".jpg") := f]> fs) cam (S reads) (S shots))
    else capture_loop E fuel image_path max_storage_size max_images
           max_capture_duration capture_interval start_time
           (images ++ [image_path +:+ "/" +:+
                       ("image_" +:+ env_strftime E (env_now E reads)
                        +:+ ".jpg")])
           (timestamps ++ [env_now E reads])
           (total_storage_size + IZR (file_size f) / (1024 * 1024))
           (mkWorld (<[image_path +:+ "/" +:+
                       ("image_" +:+ env_strftime E (env_now E reads)
                        +:+ ".jpg") := f]> fs) cam (S reads) (S shots)).
Proof.
  intros Hs Hi Hc. rewrite capture_loop_unfold by assumption.
  cbn [w_shots w_fs w_reads w_camera_open]. rewrite Hc. reflexivity.
Qed.

(** What the loop leaves behind: the camera is as it was, no file is
    removed, and when the loop returns, it returns as many timestamps
    as images, one image more for each capture, and no more than
    [max_images] of them. *)
Lemma capture_loop_inv (fuel : nat) :
  forall (images : list string) (timestamps : list datetime)
         (total_storage_size : R) (w : world)
         (r : result (list string * list datetime)) (w' : world),
  capture_loop E fuel image_path max_storage_size max_images
    max_capture_duration capture_interval start_time
    images timestamps total_storage_size w = (r, w') ->
  w_camera_open w' = w_camera_open w
  /\ (w_shots w <= w_shots w')%nat
  /\ (forall images' timestamps', r = Ok (images', timestamps') ->
      (length images = length timestamps ->
       length images' = length timestamps')
      /\ length images' = (length images + (w_shots w' - w_shots w))%nat
      /\ (Z.of_nat (length images')
          <= Z.max (Z.of_nat (length images)) max_images)%Z).
Proof.
  induction fuel as [| fuel IH]; intros images timestamps total w r w' Hrun.
  - simpl in Hrun. assert (r = Ok (images, timestamps) /\ w' = w) as [-> ->].
    { destruct (decide _); inversion Hrun; auto. }
    split; [reflexivity |]. split; [lia |].
    intros ? ? [= <- <-]. repeat split; lia.
  - destruct (decide (total < max_storage_size
                      /\ (Z.of_nat (length images) < max_images)%Z))
      as [[Hs Hi] | Hstop].
    + rewrite capture_loop_unfold in Hrun by assumption.
      destruct (env_capture E (w_shots w)) as [f |].
      * cbv zeta in Hrun.
        destruct (decide (max_capture_duration < _)).
        { inversion Hrun; subst; cbn. split; [reflexivity |]. split; [lia |].
          intros ? ? [= <- <-]. repeat rewrite length_app. cbn.
          repeat split; lia. }
        destruct (decide (capture_interval < 0)).
        { inversion Hrun; subst; cbn. split; [reflexivity |]. split; [lia |].
          intros ? ? [=]. }
        apply IH in Hrun as (Hc & Hn & Hr). cbn in Hc, Hn.
        split; [exact Hc |]. split; [lia |].
        intros images' timestamps' ->.
        destruct (Hr _ _ eq_refl) as (Hl & Hk & Hm).
        repeat rewrite length_app in Hl. repeat rewrite length_app in Hk.
        repeat rewrite length_app in Hm. cbn in Hl, Hk, Hm.
        repeat split; lia.
      * inversion Hrun; subst; cbn. split; [reflexivity |]. split; [lia |].
        intros ? ? [=].
    + rewrite capture_loop_stop in Hrun by assumption.
      inversion Hrun; subst. split; [reflexivity |]. split; [lia |].
      intros ? ? [= <- <-]. repeat split; lia.
Qed.

(** [Z.to_nat (max_images - len(images))] turns are always enough: more
    fuel does not change the outcome. *)
Lemma capture_loop_fuel (fuel : nat) :
  forall (images : list string) (timestamps : list datetime)
         (total_storage_size : R) (w : world),
  (Z.to_nat (max_images - Z.of_nat (length images)) <= fuel)%nat ->
  capture_loop E (S fuel) image_path max_storage_size max_images
    max_capture_duration capture_interval start_time
    images timestamps total_storage_size w
  = capture_loop E fuel image_path max_storage_size max_images
      max_capture_duration capture_interval start_time
      images timestamps total_storage_size w.
Proof.
  induction fuel as [| fuel IH]; intros images timestamps total w Hfuel.
  - rewrite !capture_loop_stop by lia. reflexivity.
  - destruct (decide (total < max_storage_size
                      /\ (Z.of_nat (length images) < max_images)%Z))
      as [[Hs Hi] | Hstop].
    + rewrite !capture_loop_unfold by assumption.
      destruct (env_capture E (w_shots w)) as [f |]; [| reflexivity].
      cbv zeta. repeat (destruct (decide _); [reflexivity |]).
      apply IH. rewrite length_app. cbn. lia.
    + rewrite !capture_loop_stop by assumption. reflexivity.
Qed.

(** In particular any fuel from [max_images] on gives the loop of
    [capture_images]. *)
Lemma capture_loop_more_fuel (extra : nat) (w : world) :
  capture_loop E (Z.to_nat max_images + extra) image_path max_storage_size
    max_images max_capture_duration capture_interval start_time [] [] 0 w
  = capture_loop E (Z.to_nat max_images) image_path max_storage_size
      max_images max_capture_duration capture_interval start_time [] [] 0 w.
Proof.
  induction extra as [| extra IH].
  - rewrite Nat.add_0_r. reflexivity.
  - rewrite Nat.add_succ_r, capture_loop_fuel by (cbn; lia). exact IH.
Qed.

(** [capture_images] when the camera is acquired and accepts its
    settings: the loop starts from nothing, and the camera is closed
    behind it. *)
Lemma capture_images_run (w : world) :
  env_acquire E = true ->
  env_configure E = true ->
  capture_images E image_path max_storage_size max_images
    max_capture_duration capture_interval w
  = let (r, w2) :=
      capture_loop E (Z.to_nat max_images) image_path max_storage_size
        max_images max_capture_duration capture_interval
        (env_now E (w_reads w)) [] [] 0
        (mkWorld (w_fs w) true (S (w_reads w)) (w_shots w)) in
    (Ok match r with
        | Ok (images, timestamps) => (Some images, Some timestamps)
        | Raise _ => (None, None)
        end,
     mkWorld (w_fs w2) false (w_reads w2) (w_shots w2)).
Proof.
  intros Ha Hc.
  unfold capture_images, PiCamera, capture_session, configure.
  rewrite Ha, Hc. unfold bind, ret, datetime_now, camera_close. cbn.
  destruct (capture_loop _ _ _ _ _ _ _ _ _ _ _ _) as [[[images tss] | e] w2];
    reflexivity.
Qed.

(** With the camera acquired, [capture_images] returns and leaves the
    camera closed; any exception of the session gives [(None, None)]. *)
Lemma capture_images_acquired (w : world) :
  env_acquire E = true ->
  exists r w2,
    capture_session E image_path max_storage_size max_images
      max_capture_duration capture_interval
      (mkWorld (w_fs w) true (w_reads w) (w_shots w)) = (r, w2)
    /\ capture_images E image_path max_storage_size max_images
         max_capture_duration capture_interval w
       = (Ok match r with
             | Ok (images, timestamps) => (Some images, Some timestamps)
             | Raise _ => (None, None)
             end,
          mkWorld (w_fs w2) false (w_reads w2) (w_shots w2)).
Proof.
  intros Ha. unfold capture_images, PiCamera. rewrite Ha.
  destruct (capture_session _ _ _ _ _ _ _) as [r w2]. exists r, w2.
  split; reflexivity.
Qed.

(** So the camera is released on every path that acquired it. *)
Lemma capture_images_releases (w : world) :
  env_acquire E = true ->
  exists captured w',
    capture_images E image_path max_storage_size max_images
      max_capture_duration capture_interval w = (Ok captured, w')
    /\ w_camera_open w' = false
    /\ (captured = (None, None)
        \/ exists images timestamps, captured = (Some images, Some timestamps)).
Proof.
  intros Ha. destruct (capture_images_acquired w Ha) as (r & w2 & _ & ->).
  eexists _, _. split; [reflexivity |]. split; [reflexivity |].
  destruct r as [[images timestamps] | e]; eauto.
Qed.

(** The camera refuses a setting: the sentinel, and the camera closed. *)
Lemma capture_images_configure_failure (w : world) :
  env_acquire E = true ->
  env_configure E = false ->
  capture_images E image_path max_storage_size max_images
    max_capture_duration capture_interval w
  = (Ok (None, None), mkWorld (w_fs w) false (w_reads w) (w_shots w)).
Proof.
  intros Ha Hc. unfold capture_images, PiCamera, capture_session, configure.
  rewrite Ha, Hc. reflexivity.
Qed.

End Capture.

(** The first capture fails: the sentinel, and the camera closed. *)
Lemma capture_images_capture_failure (E : environment) (image_path : string)
    (max_storage_size : R) (max_images : Z)
    (max_capture_duration capture_interval : R) (w : world) :
  env_acquire E = true ->
  env_configure E = true ->
  0 < max_storage_size ->
  (0 < max_images)%Z ->
  env_capture E (w_shots w) = None ->
  capture_images E image_path max_storage_size max_images
    max_capture_duration capture_interval w
  = (Ok (None, None),
     mkWorld (w_fs w) false (S (S (w_reads w))) (S (w_shots w))).
Proof.
  intros Ha Hc Hs Hi Hfail. rewrite capture_images_run by assumption.
  destruct (Z.to_nat max_images) as [| fuel] eqn:Hfuel; [lia |].
  rewrite capture_loop_unfold by (cbn; lra || lia).
  cbn [w_shots w_fs w_reads w_camera_open]. rewrite Hfail. reflexivity.
Qed.

(** C3 fails on the code when the camera cannot be acquired: the name
    [camera] is then unbound in the [finally] block, and the call ends
    in [UnboundLocalError] instead of returning [(None, None)]. *)
Theorem capture_images_camera_unbound (E : environment) (image_path : string)
    (max_storage_size : R) (max_images : Z)
    (max_capture_duration capture_interval : R) (w : world) :
  env_acquire E = false ->
  capture_images E image_path max_storage_size max_images
    max_capture_duration capture_interval w = (Raise UnboundLocalError, w).
Proof.
  intros Ha. unfold capture_images, PiCamera. rewrite Ha. reflexivity.
Qed.

Lemma capture_images_camera_unbound_witness :
  env_acquire no_camera_env = false
  /\ capture_images no_camera_env "/home/astro" 250 42 480 5 empty_world
     = (Raise UnboundLocalError, empty_world).
Proof.
  split; [reflexivity |].
  apply (capture_images_camera_unbound no_camera_env). reflexivity.
Defined.

(** C8 as it stands fails on the code: the loop compares the timestamp
    read before the capture with the start time, strictly.  When the
    clock gives the same reading twice, the first test does not fire
    and a second picture is taken. *)
Lemma zero_duration_two_captures :
  exists w',
    capture_images stalled_clock_env "/home/astro" 250 42 0 5 empty_world
    = (Ok (Some ["/home/astro/image_0.jpg"; "/home/astro/image_6.jpg"],
           Some [0%Z; 6000000%Z]), w')
    /\ w_shots w' = 2%nat.
Proof.
  rewrite capture_images_run by reflexivity.
  change (Z.to_nat 42) with 42%nat. unfold empty_world.
  cbn [w_fs w_reads w_shots].
  rewrite (capture_loop_turn _ _ _ _ _ _ _ _ _ _ _ _ _ _ _
             (shot_at 0 "2023:05:01 12:00:00"));
    [ | lra | cbn; lia | reflexivity ].
  rewrite decide_False by (unfold total_seconds; cbn; rewrite minus_IZR; lra).
  rewrite decide_False by lra.
  rewrite (capture_loop_turn _ _ _ _ _ _ _ _ _ _ _ _ _ _ _
             (shot_at 1 "2023:05:01 12:00:10"));
    [ | cbn [shot_at file_size]; lra | cbn; lia | reflexivity ].
  rewrite decide_True by (unfold total_seconds; cbn; rewrite minus_IZR; lra).
  eexists. split; reflexivity.
Qed.

(** C8, amended: with a duration budget of 0, budgets for storage and
    count that allow a first picture and a camera that takes it, the
    loop stops after exactly one capture whenever the clock reading
    taken for the first image is later than the reading taken at the
    start. *)
Theorem zero_duration_one_capture (E : environment) (image_path : string)
    (max_storage_size : R) (max_images : Z) (capture_interval : R)
    (w : world) (f : file) :
  env_acquire E = true ->
  env_configure E = true ->
  env_capture E (w_shots w) = Some f ->
  0 < max_storage_size ->
  (0 < max_images)%Z ->
  (env_now E (w_reads w) < env_now E (S (w_reads w)))%Z ->
  let timestamp := env_now E (S (w_reads w)) in
  let image_file :=
    image_path +:+ "/" +:+ ("image_" +:+ env_strftime E timestamp +:+ ".jpg") in
  capture_images E image_path max_storage_size max_images 0 capture_interval w
  = (Ok (Some [image_file], Some [timestamp]),
     mkWorld (<[image_file := f]> (w_fs w)) false (S (S (w_reads w)))
             (S (w_shots w))).
Proof.
  intros Ha Hc Hf Hs Hi Hclock timestamp image_file.
  rewrite capture_images_run by assumption.
  destruct (Z.to_nat max_images) as [| fuel] eqn:Hfuel; [lia |].
  rewrite (capture_loop_turn _ _ _ _ _ _ _ _ _ _ _ _ _ _ _ f);
    [ | assumption | cbn; lia | assumption ].
  rewrite decide_True; [reflexivity |].
  unfold total_seconds. rewrite minus_IZR.
  apply IZR_lt in Hclock. lra.
Qed.

Lemma zero_duration_one_capture_witness :
  exists w',
    capture_images moving_env "/home/astro" 250 42 0 5 empty_world
    = (Ok (Some ["/home/astro/image_0.jpg"], Some [1%Z]), w')
    /\ w_shots w' = 1%nat.
Proof.
  eexists. split.
  - apply (zero_duration_one_capture moving_env "/home/astro" 250 42 5
             empty_world (shot_at 0 "2023:05:01 12:00:00"));
      try reflexivity; lra.
  - reflexivity.
Defined.

(** C10: with [max_images = 0] or [max_storage_size <= 0] no picture is
    taken, whatever the camera would do; when the camera is acquired
    and accepts its settings the call returns two empty lists and
    leaves the camera closed; and [main] goes on from two empty lists
    as it does from [(None, None)]: it returns with the world
    untouched. *)
Theorem capture_images_no_budget (E : environment) (image_path : string)
    (max_storage_size : R) (max_images : Z)
    (max_capture_duration capture_interval : R) (w : world) :
  max_images = 0%Z \/ max_storage_size <= 0 ->
  (forall r w', capture_images E image_path max_storage_size max_images
                  max_capture_duration capture_interval w = (r, w') ->
                w_shots w' = w_shots w /\ w_fs w' = w_fs w)
  /\ (env_acquire E = true -> env_configure E = true ->
      capture_images E image_path max_storage_size max_images
        max_capture_duration capture_interval w
      = (Ok (Some [], Some []),
         mkWorld (w_fs w) false (S (w_reads w)) (w_shots w)))
  /\ (forall w0, process E (Some [], Some []) w0 = (Ok tt, w0)
                 /\ process E (None, None) w0 = (Ok tt, w0)).
Proof.
  intros Hbudget.
  assert (Hstop : forall (total : R) (images : list string),
             0 <= total ->
             ~ (total < max_storage_size
                /\ (Z.of_nat (length images) < max_images)%Z)).
  { intros total images Ht [H1 H2]. destruct Hbudget; [lia | lra]. }
  split; [| split].
  - intros r w'. unfold capture_images, PiCamera.
    destruct (env_acquire E).
    + unfold capture_session, configure.
      destruct (env_configure E).
      * unfold bind, ret, datetime_now, camera_close.
        rewrite capture_loop_stop by (apply Hstop; lra).
        intros [= <- <-]. split; reflexivity.
      * unfold bind, raise, camera_close, ret.
        intros [= <- <-]. split; reflexivity.
    + intros [= <- <-]. split; reflexivity.
  - intros Ha Hc. rewrite capture_images_run by assumption.
    rewrite capture_loop_stop by (apply Hstop; lra). reflexivity.
  - intros w0. split; reflexivity.
Qed.

Lemma capture_images_no_budget_witness :
  capture_images moving_env "/home/astro" 250 0 480 5 empty_world
  = (Ok (Some [], Some []), mkWorld ∅ false 1 0)
  /\ process moving_env (Some [], Some []) empty_world
     = process moving_env (None, None) empty_world.
Proof.
  destruct (capture_images_no_budget moving_env "/home/astro" 250 0 480 5
              empty_world (or_introl eq_refl)) as (_ & Hrun & Hprocess).
  split.
  - apply Hrun; reflexivity.
  - destruct (Hprocess empty_world) as [-> ->]. reflexivity.
Defined.

(** ** The aggregation loop *)

Section Aggregation.

Variable E : environment.
Variable fs : gmap string file.
Variable images : list string.

(** When the body appends an entry, the two images differ, both carry a
    geotag, and their distance and the time between them are not
    zero. *)
Lemma pair_sample_Some (i : nat) (e : entry) :
  pair_sample E fs images i = Ok (Some e) ->
  exists lat1 lon1 ts1 lat2 lon2 ts2,
    images !! (i - 1)%nat = Some (e_image1 e)
    /\ images !! i = Some (e_image2 e)
    /\ extract_coordinates_and_timestamp E fs (e_image1 e)
       = Some (lat1, lon1, ts1)
    /\ extract_coordinates_and_timestamp E fs (e_image2 e)
       = Some (lat2, lon2, ts2)
    /\ e_image1 e <> e_image2 e
    /\ haversine_distance lat1 lon1 lat2 lon2 = Ok (e_distance e)
    /\ e_distance e <> 0
    /\ e_seconds e = total_seconds (ts2 - ts1)%Z
    /\ e_seconds e <> 0
    /\ calculate_speed (e_distance e) (ts2 - ts1)%Z = Ok (e_speed e).
Proof.
  unfold pair_sample.
  destruct (images !! (i - 1)%nat) as [image1 |]; [| discriminate].
  destruct (images !! i) as [image2 |]; [| discriminate].
  destruct (extract_coordinates_and_timestamp E fs image1)
    as [[[lat1 lon1] ts1] |] eqn:H1; [| discriminate].
  destruct (extract_coordinates_and_timestamp E fs image2)
    as [[[lat2 lon2] ts2] |] eqn:H2; [| discriminate].
  destruct (decide (image1 = image2)) as [| Hne]; [discriminate |].
  destruct (haversine_distance lat1 lon1 lat2 lon2) as [d |] eqn:Hd;
    [| discriminate].
  cbn [rbind].
  destruct (Req_dec_T d 0) as [| Hd0]; [discriminate |].
  destruct (Req_dec_T (total_seconds _) 0) as [| Hsecs]; [discriminate |].
  destruct (calculate_speed d (ts2 - ts1)%Z) as [speed |] eqn:Hspeed;
    [| discriminate].
  cbn [rbind]. intros [= <-]. cbn.
  exists lat1, lon1, ts1, lat2, lon2, ts2. rewrite H1, H2. auto 12.
Qed.

(** Conversely, two different images with geotags at a distance that is
    not zero, taken at different times, give an entry. *)
Lemma pair_sample_valid (i : nat) (image1 image2 : string)
    (lat1 lon1 lat2 lon2 d : R) (ts1 ts2 : datetime) :
  images !! (i - 1)%nat = Some image1 ->
  images !! i = Some image2 ->
  extract_coordinates_and_timestamp E fs image1 = Some (lat1, lon1, ts1) ->
  extract_coordinates_and_timestamp E fs image2 = Some (lat2, lon2, ts2) ->
  image1 <> image2 ->
  haversine_distance lat1 lon1 lat2 lon2 = Ok d ->
  d <> 0 ->
  total_seconds (ts2 - ts1)%Z <> 0 ->
  pair_sample E fs images i
  = Ok (Some (mkEntry image1 image2 d (total_seconds (ts2 - ts1)%Z)
                (Rabs (d / total_seconds (ts2 - ts1)%Z)))).
Proof.
  intros Hi1 Hi2 H1 H2 Hne Hd Hd0 Hsecs.
  unfold pair_sample. rewrite Hi1, Hi2, H1, H2.
  rewrite decide_False by exact Hne. rewrite Hd. cbn [rbind].
  destruct (Req_dec_T d 0); [contradiction |].
  destruct (Req_dec_T (total_seconds _) 0); [contradiction |].
  unfold calculate_speed. rewrite py_truediv_ok by exact Hsecs.
  reflexivity.
Qed.

(** Two geotags at the same place give no entry. *)
Lemma pair_sample_same_place (i : nat) (image1 image2 : string)
    (lat lon : R) (ts1 ts2 : datetime) :
  images !! (i - 1)%nat = Some image1 ->
  images !! i = Some image2 ->
  extract_coordinates_and_timestamp E fs image1 = Some (lat, lon, ts1) ->
  extract_coordinates_and_timestamp E fs image2 = Some (lat, lon, ts2) ->
  pair_sample E fs images i = Ok None.
Proof.
  intros Hi1 Hi2 H1 H2. unfold pair_sample. rewrite Hi1, Hi2, H1, H2.
  destruct (decide (image1 = image2)); [reflexivity |].
  rewrite haversine_distance_same. cbn [rbind].
  destruct (Req_dec_T 0 0); [reflexivity | congruence].
Qed.

(** The loop appends, in the order of the indices, what its body gives
    at each of them. *)
Lemma for_pairs_spec (indices : list nat) :
  forall (speed_data result : list entry),
  for_pairs E fs images indices speed_data = Ok result ->
  exists samples,
    Forall2 (fun i sample => pair_sample E fs images i = Ok sample)
            indices samples
    /\ result = speed_data ++ omap (fun sample => sample) samples.
Proof.
  induction indices as [| i indices IH]; intros speed_data result Hrun.
  - injection Hrun as <-. exists []. split; [constructor |].
    cbn. rewrite app_nil_r. reflexivity.
  - cbn [for_pairs] in Hrun.
    destruct (pair_sample E fs images i) as [sample |] eqn:Hi;
      [| discriminate].
    cbn [rbind] in Hrun. apply IH in Hrun as (samples & Hall & ->).
    exists (sample :: samples). split; [constructor; assumption |].
    destruct sample; cbn; [rewrite <- app_assoc |]; reflexivity.
Qed.

End Aggregation.

(** C4: every entry of [speed_data] comes from two consecutive images
    that differ, whose distance is not zero and whose timestamps
    differ; [speed_data] holds what the loop body gives at the indices
    1, ..., len(images) - 1 and nothing else; and two geotags with the
    same latitude and longitude are at distance exactly 0 and give no
    entry. *)
Theorem speed_samples_from_valid_pairs (E : environment)
    (fs : gmap string file) (images : list string)
    (speed_data : list entry) :
  aggregation_loop E fs images = Ok speed_data ->
  (exists samples,
      Forall2 (fun i sample => pair_sample E fs images i = Ok sample)
              (seq 1 (length images - 1)) samples
      /\ speed_data = omap (fun sample => sample) samples)
  /\ (forall e, e ∈ speed_data ->
      exists i lat1 lon1 ts1 lat2 lon2 ts2,
        (1 <= i < length images)%nat
        /\ images !! (i - 1)%nat = Some (e_image1 e)
        /\ images !! i = Some (e_image2 e)
        /\ extract_coordinates_and_timestamp E fs (e_image1 e)
           = Some (lat1, lon1, ts1)
        /\ extract_coordinates_and_timestamp E fs (e_image2 e)
           = Some (lat2, lon2, ts2)
        /\ e_image1 e <> e_image2 e
        /\ haversine_distance lat1 lon1 lat2 lon2 = Ok (e_distance e)
        /\ e_distance e <> 0
        /\ e_seconds e = total_seconds (ts2 - ts1)%Z
        /\ e_seconds e <> 0)
  /\ (forall i image1 image2 lat lon ts1 ts2,
      images !! (i - 1)%nat = Some image1 ->
      images !! i = Some image2 ->
      extract_coordinates_and_timestamp E fs image1 = Some (lat, lon, ts1) ->
      extract_coordinates_and_timestamp E fs image2 = Some (lat, lon, ts2) ->
      haversine_distance lat lon lat lon = Ok 0
      /\ pair_sample E fs images i = Ok None).
Proof.
  intros Hrun. unfold aggregation_loop in Hrun.
  apply for_pairs_spec in Hrun as (samples & Hall & ->). cbn [app].
  split; [eauto |]. split.
  - intros e He. apply list_elem_of_omap in He as (sample & Hin & Hsome).
    cbn in Hsome. subst sample.
    apply list_elem_of_lookup in Hin as [k Hk].
    destruct (Forall2_lookup_r _ _ _ _ _ Hall Hk) as (i & Hi & Hsample).
    apply lookup_seq in Hi as [-> Hlt].
    destruct (pair_sample_Some E fs images _ e Hsample)
      as (lat1 & lon1 & ts1 & lat2 & lon2 & ts2 & H).
    exists (1 + k)%nat, lat1, lon1, ts1, lat2, lon2, ts2.
    split; [lia |]. intuition.
  - intros i image1 image2 lat lon ts1 ts2 Hi1 Hi2 H1 H2.
    split; [apply haversine_distance_same |].
    eapply pair_sample_same_place; eassumption.
Qed.

(** ** Distances that are not zero *)

Lemma atan2_pos (y x : R) : 0 < y -> 0 <= x -> 0 < atan2 y x.
Proof.
  intros Hy Hx. unfold atan2.
  destruct (Rlt_dec 0 x) as [Hpos |].
  - rewrite <- atan_0. apply atan_increasing.
    apply Rdiv_lt_0_compat; assumption.
  - destruct (Rlt_dec x 0); [lra |].
    destruct (Rlt_dec 0 y); [| lra].
    pose proof PI_RGT_0. lra.
Qed.

(** When the haversine quantity is positive, so is the distance. *)
Lemma haversine_distance_pos (lat1 lon1 lat2 lon2 : R) :
  0 < haversine_a (radians lat1) (radians lon1) (radians lat2) (radians lon2) ->
  exists d, haversine_distance lat1 lon1 lat2 lon2 = Ok d /\ 0 < d.
Proof.
  intros Ha. rewrite haversine_distance_total. eexists. split; [reflexivity |].
  pose proof (haversine_a_bounds (radians lat1) (radians lon1)
                (radians lat2) (radians lon2)) as [_ H1].
  assert (0 < atan2
                (sqrt (haversine_a (radians lat1) (radians lon1)
                         (radians lat2) (radians lon2)))
                (sqrt (1 - haversine_a (radians lat1) (radians lon1)
                             (radians lat2) (radians lon2)))).
  { apply atan2_pos; [apply sqrt_lt_R0; assumption | apply sqrt_pos]. }
  unfold radius_from_centre_of_earth_to_iss, radius_of_earth,
    mean_distance_from_iss_earth. nra.
Qed.

Lemma equator_degree_pos : 0 < equator_degree.
Proof.
  assert (Ha : 0 < haversine_a (radians 0) (radians 0) (radians 0) (radians 1)).
  { unfold haversine_a, radians.
    replace ((0 * (PI / 180) - 0 * (PI / 180)) / 2) with 0 by lra.
    replace ((1 * (PI / 180) - 0 * (PI / 180)) / 2) with (PI / 360) by lra.
    replace (0 * (PI / 180)) with 0 by lra.
    rewrite sin_0, cos_0.
    assert (0 < sin (PI / 360)).
    { pose proof PI_RGT_0. apply sin_gt_0; lra. }
    nra. }
  destruct (haversine_distance_pos 0 0 0 1 Ha) as (d & Hd & Hpos).
  rewrite haversine_distance_total in Hd. injection Hd as <-. exact Hpos.
Qed.

Lemma haversine_equator_degree :
  haversine_distance 0 0 0 1 = Ok equator_degree.
Proof. apply haversine_distance_total. Qed.

(** ** The sample sessions *)

(** What [extract_coordinates_and_timestamp] reads from a photograph
    taken on the equator. *)
Lemma extract_shot (E : environment) (fs : gmap string file) (path : string)
    (lon : R) (taken : string) (ts : datetime) :
  fs !! path = Some (shot_at lon taken) ->
  env_strptime E taken = Some ts ->
  extract_coordinates_and_timestamp E fs path = Some (0, lon, ts).
Proof.
  intros Hf Hp. unfold shot_at in Hf.
  rewrite (extract_sample E fs path _ _ _ _ _ _ _ _ _ _ ts Hf Hp).
  cbn. replace (0 + 0 / 60 + 0 / 3600) with 0 by lra.
  replace (lon + 0 / 60 + 0 / 3600) with lon by lra. reflexivity.
Qed.

Lemma sample_capture (shots : nat -> option file) (f0 f1 : file) :
  shots 0%nat = Some f0 -> shots 1%nat = Some f1 ->
  file_size f0 = 2000000%Z ->
  capture_images
    (mkEnv true true sample_clock shots sample_strftime sample_strptime
           "/home/astro")
    "/home/astro" 250 42 480 5 empty_world
  = (Ok (Some session_images, Some [1%Z; 600000000%Z]),
     mkWorld (<["/home/astro/image_600.jpg" := f1]>
                (<["/home/astro/image_0.jpg" := f0]> ∅)) false 3 2).
Proof.
  intros H0 H1 Hsize.
  rewrite capture_images_run by reflexivity.
  change (Z.to_nat 42) with 42%nat. unfold empty_world.
  cbn [w_fs w_reads w_shots].
  rewrite (capture_loop_turn _ _ _ _ _ _ _ _ _ _ _ _ _ _ _ f0);
    [ | lra | cbn; lia | exact H0 ].
  rewrite decide_False by (unfold total_seconds; cbn; rewrite minus_IZR; lra).
  rewrite decide_False by lra.
  rewrite (capture_loop_turn _ _ _ _ _ _ _ _ _ _ _ _ _ _ _ f1);
    [ | rewrite Hsize; lra | cbn; lia | exact H1 ].
  rewrite decide_True by (unfold total_seconds; cbn; rewrite minus_IZR; lra).
  reflexivity.
Qed.

Lemma moving_capture :
  capture_images moving_env "/home/astro" 250 42 480 5 empty_world
  = (Ok (Some session_images, Some [1%Z; 600000000%Z]),
     mkWorld moving_fs false 3 2).
Proof. apply sample_capture; reflexivity. Qed.

Lemma still_capture :
  capture_images still_env "/home/astro" 250 42 480 5 empty_world
  = (Ok (Some session_images, Some [1%Z; 600000000%Z]),
     mkWorld still_fs false 3 2).
Proof. apply sample_capture; reflexivity. Qed.

Lemma moving_aggregation :
  aggregation_loop moving_env moving_fs session_images = Ok [moving_entry].
Proof.
  unfold aggregation_loop, session_images. cbn [length Nat.sub seq for_pairs].
  rewrite (pair_sample_valid moving_env moving_fs _ 1
             "/home/astro/image_0.jpg" "/home/astro/image_600.jpg"
             0 0 0 1 equator_degree 0%Z 10000000%Z).
  - reflexivity.
  - reflexivity.
  - reflexivity.
  - apply extract_shot with (taken := "2023:05:01 12:00:00");
      [by simplify_map_eq | reflexivity].
  - apply extract_shot with (taken := "2023:05:01 12:00:10");
      [by simplify_map_eq | reflexivity].
  - discriminate.
  - apply haversine_equator_degree.
  - pose proof equator_degree_pos. lra.
  - unfold total_seconds. rewrite minus_IZR. lra.
Qed.

Lemma still_aggregation :
  aggregation_loop still_env still_fs session_images = Ok [].
Proof.
  unfold aggregation_loop, session_images. cbn [length Nat.sub seq for_pairs].
  rewrite (pair_sample_same_place still_env still_fs _ 1
             "/home/astro/image_0.jpg" "/home/astro/image_600.jpg"
             0 0 0%Z 10000000%Z).
  - reflexivity.
  - reflexivity.
  - reflexivity.
  - apply extract_shot with (taken := "2023:05:01 12:00:00");
      [by simplify_map_eq | reflexivity].
  - apply extract_shot with (taken := "2023:05:01 12:00:10");
      [by simplify_map_eq | reflexivity].
Qed.

Lemma speed_samples_from_valid_pairs_witness :
  aggregation_loop moving_env moving_fs session_images = Ok [moving_entry]
  /\ (forall e, e ∈ [moving_entry] ->
      e_image1 e <> e_image2 e /\ e_distance e <> 0 /\ e_seconds e <> 0).
Proof.
  split; [exact moving_aggregation |].
  destruct (speed_samples_from_valid_pairs moving_env moving_fs session_images
              [moving_entry] moving_aggregation) as (_ & Hvalid & _).
  intros e He.
  destruct (Hvalid e He) as (i & lat1 & lon1 & ts1 & lat2 & lon2 & ts2 & H).
  intuition.
Defined.

(** ** The line written to [result.txt] *)

Lemma string_app_assoc (s1 s2 s3 : string) :
  s1 +:+ (s2 +:+ s3) = (s1 +:+ s2) +:+ s3.
Proof.
  induction s1 as [| c s1 IH]; [reflexivity |].
  change (String c (s1 +:+ (s2 +:+ s3)) = String c ((s1 +:+ s2) +:+ s3)).
  rewrite IH. reflexivity.
Qed.




(** ** Retention *)

Lemma retention_cleanup_small (images : list string) (w : world) :
  (length images <= 42)%nat -> retention_cleanup images w = (Ok images, w).
Proof.
  intros H. destruct images as [| p rest]; [reflexivity |].
  cbn [retention_cleanup].
  destruct (42 <? length (p :: rest))%nat eqn:Hlt; [| reflexivity].
  apply Nat.ltb_lt in Hlt. lia.
Qed.

(** C9: over images that are files, each listed once, the cleanup
    returns; it removes the first [N - 42] files of the list (none when
    [N <= 42]), that is [max(0, N - 42)] of them, and leaves the other
    files and the last images of the list as they are. *)
Theorem retention_cleanup_oldest_first (images : list string) (w : world) :
  NoDup images ->
  (forall p, p ∈ images -> is_Some (w_fs w !! p)) ->
  let n := (length images - 42)%nat in
  exists w',
    retention_cleanup images w = (Ok (drop n images), w')
    /\ (forall p, w_fs w' !! p
                  = if decide (p ∈ take n images) then None else w_fs w !! p)
    /\ Z.of_nat (length (take n images))
       = Z.max 0 (Z.of_nat (length images) - 42)
    /\ images = take n images ++ drop n images
    /\ ((length images <= 42)%nat -> w' = w /\ drop n images = images).
Proof.
  revert w. induction images as [| p rest IH]; intros w Hnodup Hfiles n.
  - exists w. cbn. repeat split; reflexivity.
  - destruct (decide (length (p :: rest) <= 42)%nat) as [Hsmall | Hlarge].
    + exists w. rewrite retention_cleanup_small by assumption.
      assert (Hn : n = 0%nat) by (unfold n; lia). rewrite Hn. cbn [drop take].
      split; [reflexivity |]. split.
      { intros q. rewrite decide_False by apply not_elem_of_nil.
        reflexivity. }
      split; [cbn [length] in *; lia |].
      split; [reflexivity |]. intros _. split; reflexivity.
    + assert (Hn : n = S (length rest - 42))
        by (unfold n; cbn [length] in *; lia).
      rewrite Hn. cbn [drop take].
      apply NoDup_cons in Hnodup as [Hp Hrest].
      destruct (Hfiles p) as [f Hf]; [left |].
      set (w1 := mkWorld (delete p (w_fs w)) (w_camera_open w) (w_reads w)
                         (w_shots w)).
      destruct (IH w1 Hrest) as (w' & Hrun & Hfs & Hcount & Hsplit & _).
      { intros q Hq. cbn. rewrite lookup_delete_ne by (intros ->; auto).
        apply Hfiles. right. exact Hq. }
      exists w'. split; [| split; [| split; [| split]]].
      * cbn [retention_cleanup].
        destruct (42 <? length (p :: rest))%nat eqn:Hlt;
          [| apply Nat.ltb_ge in Hlt; lia].
        unfold bind at 1. unfold os_remove. rewrite Hf. fold w1. exact Hrun.
      * intros q. rewrite Hfs. cbn [w1 w_fs].
        destruct (decide (q = p)) as [-> | Hqp].
        -- rewrite lookup_delete_eq.
           rewrite (decide_True (P := p ∈ p :: _)) by left.
           destruct (decide _); reflexivity.
        -- rewrite lookup_delete_ne by auto.
           destruct (decide (q ∈ take (length rest - 42) rest)) as [Hin | Hout].
           ++ rewrite decide_True by (right; exact Hin). reflexivity.
           ++ rewrite decide_False; [reflexivity |].
              intros Hin. apply elem_of_cons in Hin as [-> | Hin]; auto.
      * cbn [length] in *. lia.
      * cbn [app]. f_equal. exact Hsplit.
      * intros Hle. lia.
Qed.

Lemma retention_cleanup_oldest_first_witness :
  exists w',
    retention_cleanup many_images (mkWorld many_fs false 0 0)
    = (Ok (drop 1 many_images), w')
    /\ w_fs w' !! "/home/astro/image_0.jpg" = None
    /\ w_fs w' !! "/home/astro/image_1.jpg" = Some (Image 2000000 None).
Proof.
  assert (Hnodup : NoDup many_images) by compute_done.
  assert (Hfiles : forall p, p ∈ many_images ->
                     is_Some (w_fs (mkWorld many_fs false 0 0) !! p)).
  { apply Forall_forall. compute_done. }
  destruct (retention_cleanup_oldest_first many_images
              (mkWorld many_fs false 0 0) Hnodup Hfiles)
    as (w' & Hrun & Hfs & _).
  exists w'. split; [exact Hrun |]. split.
  - rewrite Hfs. reflexivity.
  - rewrite Hfs. reflexivity.
Defined.

(** ** [main] *)

(** What a call of [capture_images] that returns two lists has done:
    the lists have the same length, of at most [max_images]; the camera
    is closed; and with budgets that allow a first picture the lists
    are not empty. *)
Lemma capture_images_result (E : environment) (image_path : string)
    (max_storage_size : R) (max_images : Z)
    (max_capture_duration capture_interval : R) (w w1 : world)
    (images : list string) (timestamps : list datetime) :
  capture_images E image_path max_storage_size max_images
    max_capture_duration capture_interval w
  = (Ok (Some images, Some timestamps), w1) ->
  length images = length timestamps
  /\ (Z.of_nat (length images) <= Z.max 0 max_images)%Z
  /\ w_camera_open w1 = false
  /\ (0 < max_storage_size -> (0 < max_images)%Z -> images <> []).
Proof.
  intros Hrun.
  destruct (env_acquire E) eqn:Ha.
  2: { unfold capture_images, PiCamera in Hrun. rewrite Ha in Hrun.
       discriminate. }
  destruct (env_configure E) eqn:Hc.
  2: { unfold capture_images, PiCamera, capture_session, configure in Hrun.
       rewrite Ha, Hc in Hrun. discriminate. }
  rewrite capture_images_run in Hrun by assumption.
  destruct (capture_loop _ _ _ _ _ _ _ _ _ _ _ _) as [r w2] eqn:Hloop.
  destruct r as [[images' timestamps'] | e]; [| discriminate].
  injection Hrun as -> -> <-.
  pose proof (capture_loop_inv _ _ _ _ _ _ _ _ _ _ _ _ _ _ Hloop)
    as (_ & _ & Hr).
  destruct (Hr _ _ eq_refl) as (Hlen & Hshots & Hmax).
  split; [auto |]. split; [exact Hmax |]. split; [reflexivity |].
  intros Hs Hi.
  destruct (Z.to_nat max_images) as [| fuel] eqn:Hfuel; [lia |].
  rewrite capture_loop_unfold in Hloop by (cbn; lra || lia).
  cbn [w_fs w_camera_open w_reads w_shots] in Hloop.
  destruct (env_capture E (w_shots w)) as [f |]; [| discriminate].
  cbv zeta in Hloop.
  destruct (decide (max_capture_duration < _)).
  { injection Hloop as <- _ _. discriminate. }
  destruct (decide (capture_interval < 0)); [discriminate |].
  apply capture_loop_inv in Hloop as (_ & _ & Hr').
  destruct (Hr' _ _ eq_refl) as (_ & Hk & _). cbn in Hk.
  intros ->. cbn in Hk. lia.
Qed.

Section Process.

Variable E : environment.
Variables (images : list string) (timestamps : list datetime) (w : world).
Hypothesis images_not_empty : images <> [].
Hypothesis timestamps_not_empty : timestamps <> [].

(** Without a sample the division of the mean raises, before anything
    is written or removed. *)
Lemma process_no_samples :
  aggregation_loop E (w_fs w) images = Ok [] ->
  process E (Some images, Some timestamps) w = (Raise ZeroDivisionError, w).
Proof.
  intros Hagg. unfold process.
  destruct images as [| image0 rest]; [contradiction |].
  destruct timestamps as [| ts0 tsrest]; [contradiction |].
  cbv beta iota. unfold bind, get_fs, lift. rewrite Hagg. cbn [map length INR].
  rewrite py_truediv_zero. reflexivity.
Qed.

End Process.

Lemma main_run (E : environment) (w w1 : world)
    (captured : option (list string) * option (list datetime)) :
  capture_images E (env_base_folder E) 250 42 480 5 w = (Ok captured, w1) ->
  main E w = process E captured w1.
Proof. intros Hcap. unfold main, bind. rewrite Hcap. reflexivity. Qed.

(** A session without a sample ends in the exception of the division. *)
Lemma main_no_samples (E : environment) (w w1 : world)
    (images : list string) (timestamps : list datetime) :
  capture_images E (env_base_folder E) 250 42 480 5 w
  = (Ok (Some images, Some timestamps), w1) ->
  aggregation_loop E (w_fs w1) images = Ok [] ->
  main E w = (Raise ZeroDivisionError, w1).
Proof.
  intros Hcap Hagg. rewrite (main_run _ _ _ _ Hcap).
  destruct (capture_images_result _ _ _ _ _ _ _ _ _ _ Hcap)
    as (Hlen & _ & _ & Hne).
  assert (Hi : images <> []) by (apply Hne; [lra | lia]).
  apply process_no_samples; [exact Hi | | exact Hagg].
  intros ->. destruct images; [contradiction | discriminate].
Qed.

(** C2 as it stands fails on the code: nothing tests for an empty
    [speed_data].  The division of the mean is carried out, and the
    failure of the session is the [ZeroDivisionError] of that division,
    here for two pictures taken at the same place. *)
Lemma still_session_divides_by_zero :
  capture_images still_env (env_base_folder still_env) 250 42 480 5 empty_world
  = (Ok (Some session_images, Some [1%Z; 600000000%Z]),
     mkWorld still_fs false 3 2)
  /\ aggregation_loop still_env still_fs session_images = Ok []
  /\ ~ (exists e w',
          main still_env empty_world = (Raise e, w')
          /\ e <> ZeroDivisionError).
Proof.
  split; [exact still_capture |]. split; [exact still_aggregation |].
  intros (e & w' & Hmain & He).
  rewrite (main_no_samples _ _ _ _ _ still_capture still_aggregation) in Hmain.
  congruence.
Qed.

(** C2, amended: when a session that captured images yields no sample,
    the mean is divided by zero; this raises [ZeroDivisionError], which
    ends [main], and the world is left as the capture left it: nothing
    is written to [result.txt] and nothing is removed. *)
Theorem main_without_samples_raises (E : environment) (w w1 : world)
    (images : list string) (timestamps : list datetime) :
  capture_images E (env_base_folder E) 250 42 480 5 w
  = (Ok (Some images, Some timestamps), w1) ->
  aggregation_loop E (w_fs w1) images = Ok [] ->
  py_truediv (py_sum (map e_speed [])) (INR (length (@nil entry)))
  = Raise ZeroDivisionError
  /\ main E w = (Raise ZeroDivisionError, w1).
Proof.
  intros Hcap Hagg. split.
  - apply py_truediv_zero.
  - exact (main_no_samples E w w1 images timestamps Hcap Hagg).
Qed.

Lemma main_without_samples_raises_witness :
  main still_env empty_world
  = (Raise ZeroDivisionError, mkWorld still_fs false 3 2)
  /\ still_fs !! txt_file still_env = None.
Proof.
  split.
  - exact (proj2 (main_without_samples_raises still_env empty_world
                    (mkWorld still_fs false 3 2) session_images
                    [1%Z; 600000000%Z] still_capture still_aggregation)).
  - reflexivity.
Defined.

(** ** The line of [result.txt], in double precision *)

(** 1 + 0.05 is the double nearest to 1.05. *)
Example correction_factor : (1 + 0.05)%float = 1.05%float.
Proof. reflexivity. Qed.






(** The two samples of 7 and 6 km/s: their average is 6.5, the
    corrected average is a double above 6.825, and the line holds 6.83
    (6.825 itself would be written 6.82). *)
Example two_speeds_line :
  Doubles.log_corrected_average two_speeds "/home/astro/result.txt"
    empty_world
  = (Ok tt,
     mkWorld (<["/home/astro/result.txt" :=
                Text ("6.83 km/s" +:+ newline)]> ∅) false 0 0).
Proof. vm_compute. reflexivity. Qed.

(** * Further properties of the program *)

(** ** [haversine_distance] *)

Lemma haversine_a_sym (lat1 lon1 lat2 lon2 : R) :
  haversine_a lat1 lon1 lat2 lon2 = haversine_a lat2 lon2 lat1 lon1.
Proof.
  unfold haversine_a.
  replace ((lat1 - lat2) / 2) with (- ((lat2 - lat1) / 2)) by lra.
  replace ((lon1 - lon2) / 2) with (- ((lon2 - lon1) / 2)) by lra.
  rewrite !sin_neg. ring.
Qed.

(** X1: the distance does not depend on the order of the two points. *)
Theorem haversine_distance_sym (lat1 lon1 lat2 lon2 : R) :
  haversine_distance lat1 lon1 lat2 lon2
  = haversine_distance lat2 lon2 lat1 lon1.
Proof.
  rewrite !haversine_distance_total.
  rewrite (haversine_a_sym (radians lat1)). reflexivity.
Qed.

Lemma atan2_sin_cos (t : R) :
  0 <= t <= PI / 2 -> atan2 (sin t) (cos t) = t.
Proof.
  intros [H0 H1]. pose proof PI_RGT_0 as Hpi. unfold atan2.
  destruct (Req_dec_T t (PI / 2)) as [-> | Hne].
  - rewrite cos_PI2, sin_PI2.
    destruct (Rlt_dec 0 0); [lra |]. destruct (Rlt_dec 0 1); lra.
  - assert (Hc : 0 < cos t) by (apply cos_gt_0; lra).
    destruct (Rlt_dec 0 (cos t)); [| lra].
    change (sin t / cos t) with (tan t). apply atan_tan. lra.
Qed.

(** When the haversine quantity is the squared sine of an angle [t]
    of the first quadrant, the distance is the radius times [2 t]. *)
Lemma haversine_distance_half_angle (lat1 lon1 lat2 lon2 t : R) :
  0 <= t <= PI / 2 ->
  haversine_a (radians lat1) (radians lon1) (radians lat2) (radians lon2)
  = sin t ^ 2 ->
  haversine_distance lat1 lon1 lat2 lon2
  = Ok (radius_from_centre_of_earth_to_iss * (2 * t)).
Proof.
  intros Ht Ha. pose proof PI_RGT_0 as Hpi.
  rewrite haversine_distance_total, Ha.
  assert (Hs : 0 <= sin t) by (apply sin_ge_0; lra).
  assert (Hc : 0 <= cos t) by (apply cos_ge_0; lra).
  replace (sin t ^ 2) with (Rsqr (sin t)) by (unfold Rsqr; ring).
  rewrite sqrt_Rsqr by exact Hs.
  replace (1 - Rsqr (sin t)) with (Rsqr (cos t))
    by (pose proof (sin2_cos2 t); lra).
  rewrite sqrt_Rsqr by exact Hc.
  rewrite atan2_sin_cos by exact Ht. reflexivity.
Qed.

(** X4: between two points of the same longitude, up to half a turn
    apart, and between two points of the equator, up to half a turn
    apart, the distance is the radius 6778.137 km times the angle
    between them in radians. *)
Theorem haversine_distance_arc (lat1 lat2 lon1 lon2 : R) :
  (0 <= lat2 - lat1 <= 180 ->
   haversine_distance lat1 lon1 lat2 lon1
   = Ok ((6378.137 + 400) * radians (lat2 - lat1)))
  /\ (0 <= lon2 - lon1 <= 180 ->
      haversine_distance 0 lon1 0 lon2
      = Ok ((6378.137 + 400) * radians (lon2 - lon1))).
Proof.
  pose proof PI_RGT_0 as Hpi. split; intros Hrange.
  - rewrite (haversine_distance_half_angle _ _ _ _ (radians (lat2 - lat1) / 2)).
    + unfold radius_from_centre_of_earth_to_iss, radius_of_earth,
        mean_distance_from_iss_earth. f_equal. lra.
    + unfold radians. nra.
    + unfold haversine_a, radians.
      replace ((lon1 * (PI / 180) - lon1 * (PI / 180)) / 2) with 0 by lra.
      rewrite sin_0.
      replace ((lat2 * (PI / 180) - lat1 * (PI / 180)) / 2)
        with ((lat2 - lat1) * (PI / 180) / 2) by lra.
      ring.
  - rewrite (haversine_distance_half_angle _ _ _ _ (radians (lon2 - lon1) / 2)).
    + unfold radius_from_centre_of_earth_to_iss, radius_of_earth,
        mean_distance_from_iss_earth. f_equal. lra.
    + unfold radians. nra.
    + unfold haversine_a, radians.
      replace ((0 * (PI / 180) - 0 * (PI / 180)) / 2) with 0 by lra.
      replace (0 * (PI / 180)) with 0 by lra.
      rewrite sin_0, cos_0.
      replace ((lon2 * (PI / 180) - lon1 * (PI / 180)) / 2)
        with ((lon2 - lon1) * (PI / 180) / 2) by lra.
      ring.
Qed.

Lemma haversine_distance_arc_witness :
  haversine_distance 10 20 55 20 = Ok ((6378.137 + 400) * radians (55 - 10))
  /\ haversine_distance 0 20 0 110
     = Ok ((6378.137 + 400) * radians (110 - 20)).
Proof.
  destruct (haversine_distance_arc 10 55 20 110) as [Hmeridian Hequator].
  split; [apply Hmeridian | apply Hequator]; lra.
Defined.

(** ** [calculate_speed] *)

(** X5: the speed does not depend on the sign of the distance or of
    the time difference, and with a time difference that is not zero a
    distance of 0 gives a speed of 0. *)
Theorem calculate_speed_signs (d : R) (t : timedelta) :
  calculate_speed (- d) t = calculate_speed d t
  /\ calculate_speed d (- t)%Z = calculate_speed d t
  /\ (t <> 0%Z -> calculate_speed 0 t = Ok 0).
Proof.
  assert (Hneg : total_seconds (- t)%Z = - total_seconds t).
  { unfold total_seconds. rewrite opp_IZR. lra. }
  unfold calculate_speed, py_truediv. rewrite Hneg.
  split; [| split].
  - destruct (Req_dec_T (total_seconds t) 0); [reflexivity |].
    cbn [rbind]. f_equal.
    replace (- d / total_seconds t) with (- (d / total_seconds t))
      by (field; assumption).
    apply Rabs_Ropp.
  - destruct (Req_dec_T (total_seconds t) 0) as [Hz | Hnz];
      destruct (Req_dec_T (- total_seconds t) 0); try lra; [reflexivity |].
    cbn [rbind]. f_equal.
    replace (d / - total_seconds t) with (- (d / total_seconds t))
      by (field; assumption).
    apply Rabs_Ropp.
  - intros Ht.
    destruct (Req_dec_T (total_seconds t) 0) as [Hz | _].
    { apply total_seconds_eq0 in Hz. contradiction. }
    cbn [rbind]. f_equal. unfold Rdiv. rewrite Rmult_0_l. apply Rabs_R0.
Qed.

Lemma calculate_speed_signs_witness :
  calculate_speed (- 38) 5000000%Z = calculate_speed 38 5000000%Z
  /\ calculate_speed 0 5000000%Z = Ok 0.
Proof.
  destruct (calculate_speed_signs 38 5000000%Z) as (Hsign & _ & Hzero).
  split; [exact Hsign | apply Hzero; discriminate].
Defined.

(** ** [extract_coordinates_and_timestamp] *)

(** What an image for which a geotag is returned holds. *)
Lemma extract_Some_inv (E : environment) (fs : gmap string file)
    (path : string) (lat lon : R) (ts : datetime) :
  extract_coordinates_and_timestamp E fs path = Some (lat, lon, ts)
  -> exists size exif_data gps_info tag1 tag2 tag3 tag4 taken
             d2 m2 s2 d4 m4 s4,
        fs !! path = Some (Image size (Some exif_data))
        /\ exif_data !! GPSInfo = Some (EDict gps_info)
        /\ exif_data !! DateTimeOriginal = Some (EStr taken)
        /\ env_strptime E taken = Some ts
        /\ gps_info !! 1%Z = Some tag1 /\ gps_info !! 2%Z = Some tag2
        /\ gps_info !! 3%Z = Some tag3 /\ gps_info !! 4%Z = Some tag4
        /\ component tag2 0 = Some d2 /\ component tag2 1 = Some m2
        /\ component tag2 2 = Some s2
        /\ component tag4 0 = Some d4 /\ component tag4 1 = Some m4
        /\ component tag4 2 = Some s4
        /\ lat = (if is_text tag3 "S" then - (d2 + m2 / 60 + s2 / 3600)
                  else d2 + m2 / 60 + s2 / 3600)
        /\ lon = (if is_text tag1 "W" then - (d4 + m4 / 60 + s4 / 3600)
                  else d4 + m4 / 60 + s4 / 3600).
Proof.
  unfold extract_coordinates_and_timestamp, read_geotag, GPSInfo,
    DateTimeOriginal.
  destruct (fs !! path) as [[size [exif_data |] | content] |] eqn:Hf;
    try discriminate.
  destruct (decide _) as [_ |]; [| discriminate].
  destruct (exif_data !! 34853%Z) as [[gps_info | |] |] eqn:Hg;
    try discriminate.
  destruct (gps_info !! 2%Z) as [tag2 |] eqn:Hx1; [| discriminate].
  cbn [mbind option_bind].
  destruct (component tag2 0) as [d2 |] eqn:Hx2; [| discriminate].
  cbn [mbind option_bind].
  destruct (component tag2 1) as [m2 |] eqn:Hx3; [| discriminate].
  cbn [mbind option_bind].
  destruct (component tag2 2) as [s2 |] eqn:Hx4; [| discriminate].
  cbn [mbind option_bind].
  destruct (gps_info !! 4%Z) as [tag4 |] eqn:Hx5; [| discriminate].
  cbn [mbind option_bind].
  destruct (component tag4 0) as [d4 |] eqn:Hx6; [| discriminate].
  cbn [mbind option_bind].
  destruct (component tag4 1) as [m4 |] eqn:Hx7; [| discriminate].
  cbn [mbind option_bind].
  destruct (component tag4 2) as [s4 |] eqn:Hx8; [| discriminate].
  cbn [mbind option_bind].
  destruct (gps_info !! 3%Z) as [tag3 |] eqn:Hx9; [| discriminate].
  cbn [mbind option_bind].
  destruct (gps_info !! 1%Z) as [tag1 |] eqn:Hx10; [| discriminate].
  cbn [mbind option_bind].
  destruct (exif_data !! 36867%Z) as [[| taken |] |] eqn:Ht;
    try discriminate.
  destruct (env_strptime E taken) as [ts' |] eqn:Hparse; [| discriminate].
  cbn [mbind option_bind]. intros [= <- <- <-].
  exists size, exif_data, gps_info, tag1, tag2, tag3, tag4, taken,
    d2, m2, s2, d4, m4, s4.
  repeat (split; [assumption || reflexivity |]). reflexivity.
Qed.

(** X6: a geotag is returned exactly for an image file whose Exif holds
    a GPS dictionary with the tags 1 to 4, three numbers under tag 2
    and under tag 4, and a text under 0x9003 that parses; the latitude
    is then deg + min/60 + sec/3600 of tag 2, negated when tag 3 is
    "S", and the longitude that of tag 4, negated when tag 1 is "W". *)
Theorem extract_Some_iff (E : environment) (fs : gmap string file)
    (path : string) (lat lon : R) (ts : datetime) :
  extract_coordinates_and_timestamp E fs path = Some (lat, lon, ts)
  <-> exists size exif_data gps_info tag1 tag2 tag3 tag4 taken
             d2 m2 s2 d4 m4 s4,
        fs !! path = Some (Image size (Some exif_data))
        /\ exif_data !! GPSInfo = Some (EDict gps_info)
        /\ exif_data !! DateTimeOriginal = Some (EStr taken)
        /\ env_strptime E taken = Some ts
        /\ gps_info !! 1%Z = Some tag1 /\ gps_info !! 2%Z = Some tag2
        /\ gps_info !! 3%Z = Some tag3 /\ gps_info !! 4%Z = Some tag4
        /\ component tag2 0 = Some d2 /\ component tag2 1 = Some m2
        /\ component tag2 2 = Some s2
        /\ component tag4 0 = Some d4 /\ component tag4 1 = Some m4
        /\ component tag4 2 = Some s4
        /\ lat = (if is_text tag3 "S" then - (d2 + m2 / 60 + s2 / 3600)
                  else d2 + m2 / 60 + s2 / 3600)
        /\ lon = (if is_text tag1 "W" then - (d4 + m4 / 60 + s4 / 3600)
                  else d4 + m4 / 60 + s4 / 3600).
Proof.
  split; [apply extract_Some_inv |].
  unfold extract_coordinates_and_timestamp, read_geotag, GPSInfo,
    DateTimeOriginal.
  intros (size & exif_data & gps_info & tag1 & tag2 & tag3 & tag4 & taken
        & d2 & m2 & s2 & d4 & m4 & s4 & Hf & Hg & Ht & Hp & H1 & H2 & H3
        & H4 & Hd2 & Hm2 & Hs2 & Hd4 & Hm4 & Hs4 & -> & ->).
  rewrite Hf. rewrite decide_True by (rewrite Hg, Ht; eauto).
  rewrite Hg, Ht, H2. cbn [mbind option_bind].
  rewrite Hd2, Hm2, Hs2. cbn [mbind option_bind].
  rewrite H4. cbn [mbind option_bind].
  rewrite Hd4, Hm4, Hs4. cbn [mbind option_bind].
  rewrite H3, H1. cbn [mbind option_bind].
  rewrite Hp. reflexivity.
Qed.

(** X7: no geotag is returned, and nothing is raised, when the path is
    not a file, the file is not an image or has no Exif, one of the two
    keys is missing, the timestamp does not parse, or the latitude has
    fewer than three numbers. *)
Theorem extract_soft_failure (E : environment) (fs : gmap string file)
    (path : string) :
  fs !! path = None
  \/ (exists content, fs !! path = Some (Text content))
  \/ (exists size, fs !! path = Some (Image size None))
  \/ (exists size exif_data,
        fs !! path = Some (Image size (Some exif_data))
        /\ (exif_data !! GPSInfo = None
            \/ exif_data !! DateTimeOriginal = None
            \/ (exists taken,
                  exif_data !! DateTimeOriginal = Some (EStr taken)
                  /\ env_strptime E taken = None)
            \/ (exists gps_info l,
                  exif_data !! GPSInfo = Some (EDict gps_info)
                  /\ gps_info !! GPSLatitude = Some (GTuple l)
                  /\ (length l < 3)%nat))) ->
  extract_coordinates_and_timestamp E fs path = None.
Proof.
  intros Hbad.
  destruct (extract_coordinates_and_timestamp E fs path)
    as [[[lat lon] ts] |] eqn:Hex; [exfalso | reflexivity].
  apply extract_Some_inv in Hex
    as (size & exif_data & gps_info & tag1 & tag2 & tag3 & tag4 & taken
        & d2 & m2 & s2 & d4 & m4 & s4 & Hf & Hg & Ht & Hp & H1 & H2 & H3
        & H4 & Hd2 & Hm2 & Hs2 & Hd4 & Hm4 & Hs4 & _).
  unfold GPSLatitude in Hbad.
  destruct Hbad as [Hn | [[c Hc] | [[sz Hz] | (sz & ex & Hi & Hcase)]]];
    try congruence.
  assert (ex = exif_data) as -> by congruence.
  destruct Hcase as [Hn | [Hn | [(tk & Htk & Hnp) | (g & l & Hg' & Hl & Hlen)]]];
    try congruence.
  assert (g = gps_info) as -> by congruence.
  assert (tag2 = GTuple l) as -> by congruence.
  cbn in Hs2. apply lookup_lt_Some in Hs2. lia.
Qed.

Lemma extract_soft_failure_witness :
  extract_coordinates_and_timestamp moving_env moving_fs "/home/astro/result.txt"
  = None.
Proof.
  apply (extract_soft_failure moving_env moving_fs "/home/astro/result.txt").
  left. reflexivity.
Defined.

(** ** [capture_images]: what the loop has done when it returns *)

Section CaptureTrace.

Variable E : environment.
Variables (image_path : string) (max_storage_size : R) (max_images : Z)
          (max_capture_duration capture_interval : R) (start_time : datetime).

(** The loop never removes a file, however it ends. *)
Lemma capture_loop_keeps_files (fuel : nat) :
  forall (images : list string) (timestamps : list datetime)
         (total_storage_size : R) (w : world)
         (r : result (list string * list datetime)) (w' : world),
  capture_loop E fuel image_path max_storage_size max_images
    max_capture_duration capture_interval start_time
    images timestamps total_storage_size w = (r, w') ->
  forall p, is_Some (w_fs w !! p) -> is_Some (w_fs w' !! p).
Proof.
  induction fuel as [| fuel IH]; intros images timestamps total w r w' Hrun.
  - simpl in Hrun. destruct (decide _); injection Hrun as <- <-; auto.
  - destruct (decide (total < max_storage_size
                      /\ (Z.of_nat (length images) < max_images)%Z))
      as [[Hs Hi] | Hstop].
    + rewrite capture_loop_unfold in Hrun by assumption.
      assert (Hins : forall (f : file) (q p : string),
                 is_Some (w_fs w !! p) ->
                 is_Some (<[q := f]> (w_fs w) !! p)).
      { intros f q p Hp. destruct (decide (q = p)) as [-> | Hne].
        - rewrite lookup_insert_eq. eauto.
        - rewrite lookup_insert_ne by assumption. exact Hp. }
      destruct (env_capture E (w_shots w)) as [f |].
      * cbv zeta in Hrun.
        destruct (decide (max_capture_duration < _)).
        { injection Hrun as <- <-. cbn. auto. }
        destruct (decide (capture_interval < 0)).
        { injection Hrun as <- <-. cbn. auto. }
        intros p Hp. eapply IH; [exact Hrun |]. cbn. auto.
      * injection Hrun as <- <-. cbn. auto.
    + rewrite capture_loop_stop in Hrun by assumption.
      injection Hrun as <- <-. auto.
Qed.

(** When the loop returns after [k] more turns: the timestamps are the
    next [k] clock readings, every image is named after its timestamp,
    every capture wrote a file, the budgets were not used up before any
    of the turns, the elapsed time was within the duration budget after
    all turns but the last, the new images are files and the other
    files are as they were. *)
Lemma capture_loop_trace (fuel : nat) :
  forall (images : list string) (timestamps : list datetime)
         (total_storage_size : R) (w w' : world)
         (images' : list string) (timestamps' : list datetime),
  capture_loop E fuel image_path max_storage_size max_images
    max_capture_duration capture_interval start_time
    images timestamps total_storage_size w
  = (Ok (images', timestamps'), w') ->
  exists k,
    timestamps' = timestamps ++ map (env_now E) (seq (w_reads w) k)
    /\ images' = images
                 ++ map (fun n => image_file_name E image_path (env_now E n))
                        (seq (w_reads w) k)
    /\ w_reads w' = (w_reads w + k)%nat
    /\ w_shots w' = (w_shots w + k)%nat
    /\ (forall j, (j < k)%nat -> is_Some (env_capture E (w_shots w + j)))
    /\ (forall j, (j < k)%nat ->
          total_storage_size + shots_megabytes E (w_shots w) j
          < max_storage_size
          /\ (Z.of_nat (length images + j) < max_images)%Z)
    /\ (forall j, (S j < k)%nat ->
          total_seconds (env_now E (w_reads w + j) - start_time)%Z
          <= max_capture_duration)
    /\ (forall p,
          p ∈ map (fun n => image_file_name E image_path (env_now E n))
                  (seq (w_reads w) k) ->
          is_Some (w_fs w' !! p))
    /\ (forall p,
          p ∉ map (fun n => image_file_name E image_path (env_now E n))
                  (seq (w_reads w) k) ->
          w_fs w' !! p = w_fs w !! p).
Proof.
  assert (Hnone : forall (images : list string) (timestamps : list datetime)
                         (total : R) (w : world),
             exists k,
               timestamps = timestamps ++ map (env_now E) (seq (w_reads w) k)
               /\ images = images
                    ++ map (fun n => image_file_name E image_path (env_now E n))
                           (seq (w_reads w) k)
               /\ w_reads w = (w_reads w + k)%nat
               /\ w_shots w = (w_shots w + k)%nat
               /\ (forall j, (j < k)%nat ->
                     is_Some (env_capture E (w_shots w + j)))
               /\ (forall j, (j < k)%nat ->
                     total + shots_megabytes E (w_shots w) j < max_storage_size
                     /\ (Z.of_nat (length images + j) < max_images)%Z)
               /\ (forall j, (S j < k)%nat ->
                     total_seconds (env_now E (w_reads w + j) - start_time)%Z
                     <= max_capture_duration)
               /\ (forall p,
                     p ∈ map (fun n => image_file_name E image_path
                                         (env_now E n))
                             (seq (w_reads w) k) ->
                     is_Some (w_fs w !! p))
               /\ (forall p,
                     p ∉ map (fun n => image_file_name E image_path
                                         (env_now E n))
                             (seq (w_reads w) k) ->
                     w_fs w !! p = w_fs w !! p)).
  { intros images timestamps total w. exists 0%nat. cbn.
    rewrite !app_nil_r, !Nat.add_0_r.
    repeat (split; [reflexivity || (intros; lia) |]).
    split; [| reflexivity]. intros p Hp. apply elem_of_nil in Hp. contradiction. }
  induction fuel as [| fuel IH];
    intros images timestamps total w w' images' timestamps' Hrun.
  - simpl in Hrun. destruct (decide _); injection Hrun as <- <- <-;
      apply Hnone.
  - destruct (decide (total < max_storage_size
                      /\ (Z.of_nat (length images) < max_images)%Z))
      as [[Hs Hi] | Hstop].
    2: { rewrite capture_loop_stop in Hrun by assumption.
         injection Hrun as <- <- <-. apply Hnone. }
    rewrite capture_loop_unfold in Hrun by assumption.
    destruct (env_capture E (w_shots w)) as [f |] eqn:Hf; [| discriminate].
    cbv zeta in Hrun.
    fold (image_file_name E image_path (env_now E (w_reads w))) in Hrun.
    set (name := image_file_name E image_path (env_now E (w_reads w))) in *.
    assert (Hsize : shot_megabytes E (w_shots w)
                    = IZR (file_size f) / (1024 * 1024)).
    { unfold shot_megabytes. rewrite Hf. reflexivity. }
    destruct (decide (max_capture_duration < _)) as [Hlate | Hintime].
    + injection Hrun as <- <- <-. exists 1%nat. cbn [seq map].
      fold name. cbn [w_reads w_shots w_fs].
      split; [reflexivity |]. split; [reflexivity |].
      split; [lia |]. split; [lia |].
      split.
      { intros j Hj. assert (j = 0)%nat as -> by lia.
        rewrite Nat.add_0_r, Hf. eauto. }
      split.
      { intros j Hj. assert (j = 0)%nat as -> by lia.
        unfold shots_megabytes. cbn. rewrite Nat.add_0_r. split; [lra | lia]. }
      split; [intros j Hj; lia |].
      split.
      { intros p Hp. apply list_elem_of_singleton in Hp as ->.
        rewrite lookup_insert_eq. eauto. }
      intros p Hp. rewrite lookup_insert_ne; [reflexivity |].
      intros <-. apply Hp. apply list_elem_of_singleton. reflexivity.
    + destruct (decide (capture_interval < 0)); [discriminate |].
      apply IH in Hrun
        as (k & Hts & Him & Hreads & Hshots & Hcap & Hbud & Hdur & Hin & Hout).
      cbn [w_reads w_shots w_fs] in *.
      exists (S k). cbn [seq map]. fold name.
      split; [rewrite Hts, <- app_assoc; reflexivity |].
      split; [rewrite Him, <- app_assoc; reflexivity |].
      split; [lia |]. split; [lia |].
      split.
      { intros [| j] Hj.
        - rewrite Nat.add_0_r, Hf. eauto.
        - replace (w_shots w + S j)%nat with (S (w_shots w) + j)%nat by lia.
          apply Hcap. lia. }
      split.
      { intros [| j] Hj.
        - unfold shots_megabytes. cbn. rewrite Nat.add_0_r. split; [lra | lia].
        - destruct (Hbud j) as [Hb1 Hb2]; [lia |].
          rewrite length_app in Hb2. cbn in Hb2.
          unfold shots_megabytes in *. cbn [seq map foldr].
          rewrite Hsize. split; [lra | lia]. }
      split.
      { intros [| j] Hj.
        - rewrite Nat.add_0_r.
          unfold decide, decide_rel, Rlt_decision in Hintime. lra.
        - replace (w_reads w + S j)%nat with (S (w_reads w) + j)%nat by lia.
          apply Hdur. lia. }
      split.
      { intros p Hp. apply elem_of_cons in Hp as [-> | Hp].
        - destruct (decide
                      (name ∈ map (fun n => image_file_name E image_path
                                              (env_now E n))
                                  (seq (S (w_reads w)) k))) as [Hy | Hn].
          + apply Hin. exact Hy.
          + rewrite (Hout _ Hn), lookup_insert_eq. eauto.
        - apply Hin. exact Hp. }
      intros p Hp. apply not_elem_of_cons in Hp as [Hne Hp].
      rewrite (Hout _ Hp). apply lookup_insert_ne. auto.
Qed.

End CaptureTrace.

(** A call that returns two lists has run the loop to its end, from
    nothing, with the camera held. *)
Lemma capture_images_loop (E : environment) (image_path : string)
    (max_storage_size : R) (max_images : Z)
    (max_capture_duration capture_interval : R) (w w1 : world)
    (images : list string) (timestamps : list datetime) :
  capture_images E image_path max_storage_size max_images
    max_capture_duration capture_interval w
  = (Ok (Some images, Some timestamps), w1) ->
  exists w2,
    capture_loop E (Z.to_nat max_images) image_path max_storage_size
      max_images max_capture_duration capture_interval
      (env_now E (w_reads w)) [] [] 0
      (mkWorld (w_fs w) true (S (w_reads w)) (w_shots w))
    = (Ok (images, timestamps), w2)
    /\ w1 = mkWorld (w_fs w2) false (w_reads w2) (w_shots w2).
Proof.
  intros Hrun.
  destruct (env_acquire E) eqn:Ha.
  2: { unfold capture_images, PiCamera in Hrun. rewrite Ha in Hrun.
       discriminate. }
  destruct (env_configure E) eqn:Hc.
  2: { unfold capture_images, PiCamera, capture_session, configure in Hrun.
       rewrite Ha, Hc in Hrun. discriminate. }
  rewrite capture_images_run in Hrun by assumption.
  destruct (capture_loop _ _ _ _ _ _ _ _ _ _ _ _) as [r w2].
  destruct r as [[images' timestamps'] | e]; [| discriminate].
  injection Hrun as -> -> <-. eauto.
Qed.

(** X8: when [capture_images] returns lists, the timestamps are the
    clock readings that follow the reading of the start time, one per
    image, and each image is the file [image_path/image_<strftime of
    its timestamp>.jpg]. *)
Theorem capture_images_names (E : environment) (image_path : string)
    (max_storage_size : R) (max_images : Z)
    (max_capture_duration capture_interval : R) (w w1 : world)
    (images : list string) (timestamps : list datetime) :
  capture_images E image_path max_storage_size max_images
    max_capture_duration capture_interval w
  = (Ok (Some images, Some timestamps), w1) ->
  timestamps
  = map (env_now E) (seq (S (w_reads w)) (length timestamps))
  /\ images = map (image_file_name E image_path) timestamps
  /\ w_reads w1 = (S (w_reads w) + length images)%nat
  /\ w_shots w1 = (w_shots w + length images)%nat.
Proof.
  intros Hrun.
  apply capture_images_loop in Hrun as (w2 & Hloop & ->).
  apply capture_loop_trace in Hloop
    as (k & Hts & Him & Hreads & Hshots & _).
  cbn [w_reads w_shots app] in *. subst timestamps images.
  rewrite !length_map, length_seq, map_map.
  repeat split; (reflexivity || assumption).
Qed.

Lemma capture_images_names_witness :
  [1%Z; 600000000%Z] = map sample_clock (seq 1 2)
  /\ session_images
     = map (image_file_name moving_env "/home/astro") [1%Z; 600000000%Z].
Proof.
  destruct (capture_images_names moving_env "/home/astro" 250 42 480 5
              empty_world _ _ _ moving_capture) as (Hts & Him & _).
  split; [exact Hts | exact Him].
Defined.

(** X9: when [capture_images] returns lists, every image of the list
    is a file, and every path that is not in the list holds what it
    held before the call. *)
Theorem capture_images_files (E : environment) (image_path : string)
    (max_storage_size : R) (max_images : Z)
    (max_capture_duration capture_interval : R) (w w1 : world)
    (images : list string) (timestamps : list datetime) :
  capture_images E image_path max_storage_size max_images
    max_capture_duration capture_interval w
  = (Ok (Some images, Some timestamps), w1) ->
  (forall p, p ∈ images -> is_Some (w_fs w1 !! p))
  /\ (forall p, p ∉ images -> w_fs w1 !! p = w_fs w !! p).
Proof.
  intros Hrun.
  apply capture_images_loop in Hrun as (w2 & Hloop & ->).
  apply capture_loop_trace in Hloop
    as (k & _ & Him & _ & _ & _ & _ & _ & Hin & Hout).
  cbn [w_reads w_shots w_fs app] in *. subst images.
  split; assumption.
Qed.

Lemma capture_images_files_witness :
  is_Some (moving_fs !! "/home/astro/image_600.jpg")
  /\ moving_fs !! "/home/astro/result.txt" = None.
Proof.
  destruct (capture_images_files moving_env "/home/astro" 250 42 480 5
              empty_world _ _ _ moving_capture) as [Hin Hout].
  split.
  - apply (Hin "/home/astro/image_600.jpg"). compute_done.
  - apply (Hout "/home/astro/result.txt"). compute_done.
Defined.

(** X10: when [capture_images] returns lists, the budgets were
    overrun by one turn at most: before each capture the files written
    so far were below [max_storage_size] megabytes and fewer than
    [max_images]; and every timestamp but the last is within
    [max_capture_duration] seconds of the start time. *)
Theorem capture_images_budgets (E : environment) (image_path : string)
    (max_storage_size : R) (max_images : Z)
    (max_capture_duration capture_interval : R) (w w1 : world)
    (images : list string) (timestamps : list datetime) :
  capture_images E image_path max_storage_size max_images
    max_capture_duration capture_interval w
  = (Ok (Some images, Some timestamps), w1) ->
  (forall j, (j < length images)%nat ->
     shots_megabytes E (w_shots w) j < max_storage_size
     /\ (Z.of_nat j < max_images)%Z)
  /\ (forall j ts, (S j < length timestamps)%nat ->
        timestamps !! j = Some ts ->
        total_seconds (ts - env_now E (w_reads w))%Z
        <= max_capture_duration).
Proof.
  intros Hrun.
  apply capture_images_loop in Hrun as (w2 & Hloop & ->).
  apply capture_loop_trace in Hloop
    as (k & Hts & Him & _ & _ & _ & Hbud & Hdur & _).
  cbn [w_reads w_shots w_fs app length] in *. subst images timestamps.
  rewrite !length_map, !length_seq. split.
  - intros j Hj. destruct (Hbud j Hj) as [Hb1 Hb2].
    split; [lra | exact Hb2].
  - intros j ts Hj Hlook.
    rewrite list_lookup_fmap in Hlook.
    destruct (seq (S (w_reads w)) k !! j) as [n |] eqn:Hn; [| discriminate].
    apply lookup_seq in Hn as [-> _]. injection Hlook as <-.
    apply Hdur. exact Hj.
Qed.

Lemma capture_images_budgets_witness :
  shots_megabytes moving_env 0 1 < 250
  /\ total_seconds (1 - sample_clock 0)%Z <= 480.
Proof.
  destruct (capture_images_budgets moving_env "/home/astro" 250 42 480 5
              empty_world _ _ _ moving_capture) as [Hbud Hdur].
  split.
  - apply (Hbud 1%nat). cbn. lia.
  - apply (Hdur 0%nat 1%Z); [cbn; lia | reflexivity].
Defined.

(** [capture_images] never removes a file, however it ends. *)
Lemma capture_images_keeps_files (E : environment) (image_path : string)
    (max_storage_size : R) (max_images : Z)
    (max_capture_duration capture_interval : R) (w w' : world)
    (r : result (option (list string) * option (list datetime))) :
  capture_images E image_path max_storage_size max_images
    max_capture_duration capture_interval w = (r, w') ->
  forall p, is_Some (w_fs w !! p) -> is_Some (w_fs w' !! p).
Proof.
  intros Hrun.
  destruct (env_acquire E) eqn:Ha.
  2: { unfold capture_images, PiCamera in Hrun. rewrite Ha in Hrun.
       injection Hrun as <- <-. auto. }
  destruct (env_configure E) eqn:Hc.
  2: { rewrite capture_images_configure_failure in Hrun by assumption.
       injection Hrun as <- <-. cbn. auto. }
  rewrite capture_images_run in Hrun by assumption.
  destruct (capture_loop _ _ _ _ _ _ _ _ _ _ _ _) as [rl w2] eqn:Hloop.
  injection Hrun as <- <-. intros p Hp. cbn [w_fs].
  eapply capture_loop_keeps_files; [exact Hloop | exact Hp].
Qed.

(** X11: once the camera is acquired, [capture_images] raises nothing:
    it returns [(None, None)] or two lists, with the camera closed and
    no file removed. *)
Theorem capture_images_returns (E : environment) (image_path : string)
    (max_storage_size : R) (max_images : Z)
    (max_capture_duration capture_interval : R) (w : world) :
  env_acquire E = true ->
  exists captured w',
    capture_images E image_path max_storage_size max_images
      max_capture_duration capture_interval w = (Ok captured, w')
    /\ w_camera_open w' = false
    /\ (captured = (None, None)
        \/ exists images timestamps,
             captured = (Some images, Some timestamps)
             /\ length images = length timestamps)
    /\ (forall p, is_Some (w_fs w !! p) -> is_Some (w_fs w' !! p)).
Proof.
  intros Ha.
  destruct (capture_images_acquired E image_path max_storage_size max_images
              max_capture_duration capture_interval w Ha)
    as (r & w2 & _ & Hrun).
  eexists _, _. split; [exact Hrun |]. split; [reflexivity |]. split.
  - destruct r as [[images timestamps] | e]; [right | left; reflexivity].
    exists images, timestamps. split; [reflexivity |].
    apply (capture_images_result _ _ _ _ _ _ _ _ _ _ Hrun).
  - exact (capture_images_keeps_files _ _ _ _ _ _ _ _ _ Hrun).
Qed.

Lemma capture_images_returns_witness :
  exists captured w',
    capture_images refusing_env "/home/astro" 250 42 480 5 empty_world
    = (Ok captured, w')
    /\ w_camera_open w' = false.
Proof.
  destruct (capture_images_returns refusing_env "/home/astro" 250 42 480 5
              empty_world eq_refl) as (captured & w' & Hrun & Hclosed & _).
  exists captured, w'. split; assumption.
Defined.

(** X12: with a negative [capture_interval], budgets that allow a
    first picture and a first timestamp within the duration budget, the
    first picture is taken, [sleep] raises, and the call returns
    [(None, None)] with the camera closed and the picture left on
    disk. *)
Theorem capture_images_negative_interval (E : environment)
    (image_path : string) (max_storage_size : R) (max_images : Z)
    (max_capture_duration capture_interval : R) (w : world) (f : file) :
  env_acquire E = true ->
  env_configure E = true ->
  env_capture E (w_shots w) = Some f ->
  0 < max_storage_size ->
  (0 < max_images)%Z ->
  total_seconds (env_now E (S (w_reads w)) - env_now E (w_reads w))%Z
  <= max_capture_duration ->
  capture_interval < 0 ->
  capture_images E image_path max_storage_size max_images
    max_capture_duration capture_interval w
  = (Ok (None, None),
     mkWorld (<[image_file_name E image_path (env_now E (S (w_reads w)))
                := f]> (w_fs w))
             false (S (S (w_reads w))) (S (w_shots w))).
Proof.
  intros Ha Hc Hf Hs Hi Hd Hneg.
  rewrite capture_images_run by assumption.
  destruct (Z.to_nat max_images) as [| fuel] eqn:Hfuel; [lia |].
  rewrite (capture_loop_turn _ _ _ _ _ _ _ _ _ _ _ _ _ _ _ f);
    [ | assumption | cbn; lia | assumption ].
  rewrite decide_False by lra. rewrite decide_True by assumption.
  reflexivity.
Qed.

Lemma capture_images_negative_interval_witness :
  capture_images moving_env "/home/astro" 250 42 480 (-1) empty_world
  = (Ok (None, None),
     mkWorld (<["/home/astro/image_0.jpg" := shot_at 0 "2023:05:01 12:00:00"]>
                ∅) false 2 1).
Proof.
  apply (capture_images_negative_interval moving_env "/home/astro" 250 42 480
           (-1) empty_world (shot_at 0 "2023:05:01 12:00:00"));
    try reflexivity; try lra.
  unfold total_seconds. cbn. rewrite minus_IZR. lra.
Defined.

(** ** The aggregation loop: more *)

Lemma omap_length_le {A B} (f : A -> option B) (l : list A) :
  (length (omap f l) <= length l)%nat.
Proof.
  induction l as [| x l IH]; [reflexivity |].
  cbn. destruct (f x); cbn; lia.
Qed.

(** X13: the entries the aggregation loop returns are at most
    len(images) - 1. *)
Theorem aggregation_loop_at_most_pairs (E : environment)
    (fs : gmap string file) (images : list string)
    (speed_data : list entry) :
  aggregation_loop E fs images = Ok speed_data ->
  (length speed_data <= length images - 1)%nat.
Proof.
  intros Hrun. unfold aggregation_loop in Hrun.
  apply for_pairs_spec in Hrun as (samples & Hall & ->). cbn [app].
  apply Forall2_length in Hall. rewrite length_seq in Hall.
  rewrite Hall. apply omap_length_le.
Qed.

Lemma aggregation_loop_at_most_pairs_witness :
  (length [moving_entry] <= length session_images - 1)%nat.
Proof.
  exact (aggregation_loop_at_most_pairs moving_env moving_fs session_images
           [moving_entry] moving_aggregation).
Defined.

(** X14: every pair of consecutive, different images with geotags at a
    distance that is not zero and with different timestamps has its
    entry in [speed_data]: the two images, the distance, the seconds
    between the timestamps and the absolute value of their quotient. *)
Theorem aggregation_loop_complete (E : environment) (fs : gmap string file)
    (images : list string) (speed_data : list entry) (i : nat)
    (image1 image2 : string) (lat1 lon1 lat2 lon2 d : R)
    (ts1 ts2 : datetime) :
  aggregation_loop E fs images = Ok speed_data ->
  images !! (i - 1)%nat = Some image1 ->
  images !! i = Some image2 ->
  extract_coordinates_and_timestamp E fs image1 = Some (lat1, lon1, ts1) ->
  extract_coordinates_and_timestamp E fs image2 = Some (lat2, lon2, ts2) ->
  image1 <> image2 ->
  haversine_distance lat1 lon1 lat2 lon2 = Ok d ->
  d <> 0 ->
  ts2 <> ts1 ->
  mkEntry image1 image2 d (total_seconds (ts2 - ts1)%Z)
          (Rabs (d / total_seconds (ts2 - ts1)%Z)) ∈ speed_data.
Proof.
  intros Hrun Hi1 Hi2 H1 H2 Hne Hd Hd0 Hts.
  assert (Hsecs : total_seconds (ts2 - ts1)%Z <> 0).
  { intros H. apply total_seconds_eq0 in H. lia. }
  pose proof (pair_sample_valid E fs images i image1 image2 lat1 lon1 lat2
                lon2 d ts1 ts2 Hi1 Hi2 H1 H2 Hne Hd Hd0 Hsecs) as Hsample.
  assert (Hi : (1 <= i < length images)%nat).
  { split; [| apply lookup_lt_Some in Hi2; exact Hi2].
    destruct i; [| lia]. change (0 - 1)%nat with 0%nat in Hi1.
    rewrite Hi1 in Hi2. injection Hi2 as ->. contradiction. }
  unfold aggregation_loop in Hrun.
  apply for_pairs_spec in Hrun as (samples & Hall & ->). cbn [app].
  assert (Hseq : seq 1 (length images - 1) !! (i - 1)%nat = Some i).
  { apply lookup_seq. lia. }
  destruct (Forall2_lookup_l _ _ _ _ _ Hall Hseq) as (sample & Hk & Hs).
  rewrite Hsample in Hs. injection Hs as <-.
  apply list_elem_of_omap. eexists. split; [| reflexivity].
  apply list_elem_of_lookup. eauto.
Qed.

Lemma aggregation_loop_complete_witness :
  mkEntry "/home/astro/image_0.jpg" "/home/astro/image_600.jpg"
          equator_degree (total_seconds (10000000 - 0)%Z)
          (Rabs (equator_degree / total_seconds (10000000 - 0)%Z))
  ∈ [moving_entry].
Proof.
  apply (aggregation_loop_complete moving_env moving_fs session_images
           [moving_entry] 1 "/home/astro/image_0.jpg"
           "/home/astro/image_600.jpg" 0 0 0 1 equator_degree 0%Z 10000000%Z).
  - exact moving_aggregation.
  - reflexivity.
  - reflexivity.
  - apply extract_shot with (taken := "2023:05:01 12:00:00");
      [by simplify_map_eq | reflexivity].
  - apply extract_shot with (taken := "2023:05:01 12:00:10");
      [by simplify_map_eq | reflexivity].
  - discriminate.
  - apply haversine_equator_degree.
  - pose proof equator_degree_pos. lra.
  - discriminate.
Defined.

(** X16: the aggregation reads the files of the images and nothing
    else: over two file systems that hold the same under every image
    of the list it returns the same. *)
Theorem aggregation_loop_reads_images (E : environment)
    (fs1 fs2 : gmap string file) (images : list string) :
  (forall p, p ∈ images -> fs1 !! p = fs2 !! p) ->
  aggregation_loop E fs1 images = aggregation_loop E fs2 images.
Proof.
  intros Hsame.
  assert (Hext : forall p, p ∈ images ->
            extract_coordinates_and_timestamp E fs1 p
            = extract_coordinates_and_timestamp E fs2 p).
  { intros p Hp. unfold extract_coordinates_and_timestamp.
    rewrite (Hsame p Hp). reflexivity. }
  assert (Hpair : forall i, pair_sample E fs1 images i
                            = pair_sample E fs2 images i).
  { intros i. unfold pair_sample.
    destruct (images !! (i - 1)%nat) as [image1 |] eqn:H1; [| reflexivity].
    destruct (images !! i) as [image2 |] eqn:H2; [| reflexivity].
    rewrite (Hext image1), (Hext image2); [reflexivity | |];
      apply list_elem_of_lookup; eauto. }
  unfold aggregation_loop. generalize (@nil entry).
  induction (seq 1 (length images - 1)) as [| i indices IH]; intros acc;
    [reflexivity |].
  cbn [for_pairs]. rewrite Hpair.
  destruct (pair_sample E fs2 images i) as [sample |]; [| reflexivity].
  cbn [rbind]. apply IH.
Qed.

Lemma aggregation_loop_reads_images_witness :
  aggregation_loop moving_env
    (<["/home/astro/result.txt" := Text "7.66 km/s"]> moving_fs)
    session_images
  = aggregation_loop moving_env moving_fs session_images.
Proof.
  apply (aggregation_loop_reads_images moving_env).
  intros p Hp. apply lookup_insert_ne. intros <-. revert Hp. compute_done.
Defined.

(** ** Retention: when the cleanup succeeds *)

(** X17: with [n = max(0, N - 42)], the cleanup returns exactly when
    the first [n] paths of the list are files, each listed once among
    them; it then removes these and nothing else and returns the rest
    of the list.  Otherwise it ends in [FileNotFoundError]: at a path
    that is no file, or at the second removal of a path listed
    twice. *)
Theorem retention_cleanup_outcome (images : list string) :
  forall w : world,
  let n := (length images - 42)%nat in
  (NoDup (take n images)
   /\ (forall p, p ∈ take n images -> is_Some (w_fs w !! p)) ->
   exists w',
     retention_cleanup images w = (Ok (drop n images), w')
     /\ forall p, w_fs w' !! p
                  = if decide (p ∈ take n images) then None
                    else w_fs w !! p)
  /\ (~ (NoDup (take n images)
         /\ (forall p, p ∈ take n images -> is_Some (w_fs w !! p))) ->
      exists w', retention_cleanup images w = (Raise FileNotFoundError, w')).
Proof.
  induction images as [| oldest rest IH]; intros w n.
  - split.
    + intros _. exists w. split; [reflexivity |]. intros p.
      rewrite decide_False by apply not_elem_of_nil. reflexivity.
    + intros Hbad. exfalso. apply Hbad. subst n. cbn.
      split; [constructor |]. intros p Hp. apply elem_of_nil in Hp.
      contradiction.
  - destruct (decide (length (oldest :: rest) <= 42)%nat) as [Hsmall | Hlarge].
    + assert (Hn : n = 0%nat) by (unfold n; lia). rewrite Hn. cbn [take drop].
      split.
      * intros _. exists w. rewrite retention_cleanup_small by assumption.
        split; [reflexivity |]. intros p.
        rewrite decide_False by apply not_elem_of_nil. reflexivity.
      * intros Hbad. exfalso. apply Hbad. split; [constructor |].
        intros p Hp. apply elem_of_nil in Hp. contradiction.
    + assert (Hn : n = S (length rest - 42))
        by (unfold n; cbn [length] in *; lia).
      rewrite Hn. cbn [take drop].
      assert (Hstep : retention_cleanup (oldest :: rest) w
                      = (do _ <- os_remove oldest ;; retention_cleanup rest) w).
      { cbn [retention_cleanup].
        destruct (42 <? length (oldest :: rest))%nat eqn:Hlt;
          [reflexivity | apply Nat.ltb_ge in Hlt; lia]. }
      rewrite Hstep. unfold bind at 1 2. unfold os_remove.
      destruct (w_fs w !! oldest) as [f |] eqn:Hf.
      * set (w1 := mkWorld (delete oldest (w_fs w)) (w_camera_open w)
                           (w_reads w) (w_shots w)).
        destruct (IH w1) as [Hgood Hbad]. cbn [w1 w_fs] in Hgood, Hbad.
        assert (Hiff :
                  (NoDup (oldest :: take (length rest - 42) rest)
                   /\ (forall p, p ∈ oldest :: take (length rest - 42) rest ->
                                 is_Some (w_fs w !! p)))
                  <-> (NoDup (take (length rest - 42) rest)
                       /\ (forall p, p ∈ take (length rest - 42) rest ->
                                     is_Some (delete oldest (w_fs w) !! p)))).
        { split.
          - intros [Hnd Hall]. apply NoDup_cons in Hnd as [Hnotin Hnd].
            split; [exact Hnd |]. intros p Hp.
            rewrite lookup_delete_ne by (intros ->; contradiction).
            apply Hall. right. exact Hp.
          - intros [Hnd Hall]. split.
            + apply NoDup_cons. split; [| exact Hnd].
              intros Hin. apply Hall in Hin.
              rewrite lookup_delete_eq in Hin. destruct Hin as [? [=]].
            + intros p Hp. apply elem_of_cons in Hp as [-> | Hp]; [eauto |].
              specialize (Hall p Hp).
              destruct (decide (oldest = p)) as [-> | Hne].
              * rewrite lookup_delete_eq in Hall. destruct Hall as [? [=]].
              * rewrite lookup_delete_ne in Hall by assumption. exact Hall. }
        split.
        -- intros Hok. apply Hiff in Hok.
           destruct (Hgood Hok) as (w' & Hrun & Hfs).
           exists w'. split; [exact Hrun |]. intros p. rewrite Hfs.
           destruct (decide (p = oldest)) as [-> | Hpo].
           ++ rewrite lookup_delete_eq.
              rewrite (decide_True (P := oldest ∈ oldest :: _)) by left.
              destruct (decide _); reflexivity.
           ++ rewrite lookup_delete_ne by auto.
              destruct (decide (p ∈ take (length rest - 42) rest))
                as [Hin | Hout].
              ** rewrite decide_True by (right; exact Hin). reflexivity.
              ** rewrite decide_False; [reflexivity |].
                 intros Hin. apply elem_of_cons in Hin as [-> | Hin]; auto.
        -- intros Hnot. apply Hbad. rewrite <- Hiff. exact Hnot.
      * split.
        -- intros [_ Hall]. destruct (Hall oldest) as [f Hf']; [left |].
           congruence.
        -- intros _. eexists. reflexivity.
Qed.

Lemma retention_cleanup_outcome_witness :
  exists w',
    retention_cleanup many_images (mkWorld ∅ false 0 0)
    = (Raise FileNotFoundError, w').
Proof.
  destruct (retention_cleanup_outcome many_images (mkWorld ∅ false 0 0))
    as [_ Hbad].
  apply Hbad. intros [_ Hall].
  destruct (Hall "/home/astro/image_0.jpg") as [f Hf]; [compute_done |].
  discriminate.
Defined.

(** ** [main]: more *)

(** X18: when the camera is there but refuses a setting, [main]
    returns without writing anything; when [PiCamera()] raises, [main]
    ends in [UnboundLocalError], also without writing anything. *)
Theorem main_camera_failure (E : environment) (w : world) :
  (env_acquire E = true -> env_configure E = false ->
   main E w
   = (Ok tt, mkWorld (w_fs w) false (w_reads w) (w_shots w)))
  /\ (env_acquire E = false -> main E w = (Raise UnboundLocalError, w)).
Proof.
  split.
  - intros Ha Hc.
    rewrite (main_run E w _ _
               (capture_images_configure_failure E _ _ _ _ _ w Ha Hc)).
    reflexivity.
  - intros Ha. unfold main, bind, capture_images, PiCamera.
    rewrite Ha. reflexivity.
Qed.

Lemma main_camera_failure_witness :
  main refusing_env empty_world = (Ok tt, mkWorld ∅ false 0 0)
  /\ main no_camera_env empty_world = (Raise UnboundLocalError, empty_world).
Proof.
  split.
  - apply (proj1 (main_camera_failure refusing_env empty_world));
      reflexivity.
  - apply (proj2 (main_camera_failure no_camera_env empty_world)).
    reflexivity.
Defined.

(** X19: when the capture returns a single image, there is no pair:
    [main] ends in [ZeroDivisionError] and writes nothing. *)
Theorem main_single_image (E : environment) (w w1 : world) (image : string)
    (timestamp : datetime) :
  capture_images E (env_base_folder E) 250 42 480 5 w
  = (Ok (Some [image], Some [timestamp]), w1) ->
  aggregation_loop E (w_fs w1) [image] = Ok []
  /\ main E w = (Raise ZeroDivisionError, w1).
Proof.
  intros Hcap.
  assert (Hagg : aggregation_loop E (w_fs w1) [image] = Ok [])
    by reflexivity.
  split; [exact Hagg |].
  exact (main_no_samples E w w1 [image] [timestamp] Hcap Hagg).
Qed.

Lemma late_capture :
  capture_images late_env (env_base_folder late_env) 250 42 480 5 empty_world
  = (Ok (Some ["/home/astro/image_600.jpg"], Some [600000000%Z]),
     mkWorld (<["/home/astro/image_600.jpg"
                := shot_at 0 "2023:05:01 12:00:00"]> ∅) false 2 1).
Proof.
  rewrite capture_images_run by reflexivity.
  change (Z.to_nat 42) with 42%nat. unfold empty_world.
  cbn [w_fs w_reads w_shots].
  rewrite (capture_loop_turn _ _ _ _ _ _ _ _ _ _ _ _ _ _ _
             (shot_at 0 "2023:05:01 12:00:00"));
    [ | lra | cbn; lia | reflexivity ].
  rewrite decide_True by (unfold total_seconds; cbn; rewrite minus_IZR; lra).
  reflexivity.
Qed.

Lemma main_single_image_witness :
  main late_env empty_world
  = (Raise ZeroDivisionError,
     mkWorld (<["/home/astro/image_600.jpg"
                := shot_at 0 "2023:05:01 12:00:00"]> ∅) false 2 1).
Proof.
  exact (proj2 (main_single_image late_env empty_world _ _ _ late_capture)).
Defined.

Lemma process_keeps_files (E : environment) (images : list string)
    (timestamps : list datetime) (w w' : world) (r : result unit) :
  (length images <= 42)%nat ->
  process E (Some images, Some timestamps) w = (r, w') ->
  forall p, is_Some (w_fs w !! p) -> is_Some (w_fs w' !! p).
Proof.
  intros Hlen. unfold process.
  destruct images as [| image0 rest]; [intros [= <- <-]; auto |].
  destruct timestamps as [| ts0 tsrest]; [intros [= <- <-]; auto |].
  unfold bind at 1. unfold get_fs. unfold bind at 1. unfold lift at 1.
  destruct (aggregation_loop E (w_fs w) (image0 :: rest)) as [speed_data |];
    [| intros [= <- <-]; auto].
  unfold bind at 1. unfold lift at 1.
  destruct (py_truediv _ _) as [avg_speed |]; [| intros [= <- <-]; auto].
  unfold bind at 1. unfold log_average_speed_to_txt, write_text.
  unfold bind at 1. rewrite retention_cleanup_small by exact Hlen.
  intros [= <- <-] p Hp. cbn [w_fs].
  destruct (decide (txt_file E = p)) as [-> | Hne].
  - rewrite lookup_insert_eq. eauto.
  - rewrite lookup_insert_ne by assumption. exact Hp.
Qed.

Lemma captured_images_exist (E : environment) (image_path : string)
    (max_storage_size : R) (max_images : Z)
    (max_capture_duration capture_interval : R) (w w1 : world)
    (images : list string) (timestamps : list datetime) :
  capture_images E image_path max_storage_size max_images
    max_capture_duration capture_interval w
  = (Ok (Some images, Some timestamps), w1) ->
  forall p, p ∈ images -> is_Some (w_fs w1 !! p).
Proof.
  intros Hrun.
  apply capture_images_loop in Hrun as (w2 & Hloop & ->).
  apply capture_loop_trace in Hloop
    as (k & _ & Him & _ & _ & _ & _ & _ & Hin & _).
  cbn [w_reads w_shots w_fs app] in *. subst images. exact Hin.
Qed.

(** X20: [main] never removes a file, however it ends: the capture
    stops at 42 images, which the retention loop keeps.  In
    particular every image the capture returned is still a file when
    [main] ends. *)
Theorem main_keeps_files (E : environment) (w w' : world) (r : result unit) :
  main E w = (r, w') ->
  (forall p, is_Some (w_fs w !! p) -> is_Some (w_fs w' !! p))
  /\ (forall images timestamps w1,
        capture_images E (env_base_folder E) 250 42 480 5 w
        = (Ok (Some images, Some timestamps), w1) ->
        forall p, p ∈ images -> is_Some (w_fs w' !! p)).
Proof.
  intros Hmain.
  assert (Hafter : forall captured w1,
            capture_images E (env_base_folder E) 250 42 480 5 w
            = (Ok captured, w1) ->
            forall p, is_Some (w_fs w1 !! p) -> is_Some (w_fs w' !! p)).
  { intros captured w1 Hcap. rewrite (main_run _ _ _ _ Hcap) in Hmain.
    destruct captured as [[images |] [timestamps |]].
    - apply (process_keeps_files E images timestamps w1 w' r); [| exact Hmain].
      destruct (capture_images_result _ _ _ _ _ _ _ _ _ _ Hcap)
        as (_ & Hmax & _). lia.
    - destruct images as [| ? ?]; injection Hmain as <- <-; auto.
    - injection Hmain as <- <-. auto.
    - injection Hmain as <- <-. auto. }
  split.
  - intros p Hp.
    destruct (capture_images E (env_base_folder E) 250 42 480 5 w)
      as [[captured | e] w1] eqn:Hcap.
    + eapply Hafter; [reflexivity |].
      eapply capture_images_keeps_files; [exact Hcap | exact Hp].
    + unfold main, bind in Hmain. rewrite Hcap in Hmain.
      injection Hmain as <- <-.
      eapply capture_images_keeps_files; [exact Hcap | exact Hp].
  - intros images timestamps w1 Hcap p Hp.
    eapply Hafter; [exact Hcap |].
    apply (captured_images_exist _ _ _ _ _ _ _ _ _ _ Hcap). exact Hp.
Qed.

Lemma main_keeps_files_witness :
  is_Some (still_fs !! "/home/astro/image_0.jpg").
Proof.
  destruct (main_keeps_files still_env empty_world _ _
              (main_no_samples _ _ _ _ _ still_capture still_aggregation))
    as [_ Hkept].
  apply (Hkept _ _ _ still_capture "/home/astro/image_0.jpg").
  compute_done.
Defined.

(** ** [log_average_speed_to_txt]: more *)

(** X21: logging replaces whatever the text file held by the one line
    and touches no other file; logging a second speed leaves what
    logging that speed alone leaves. *)
Theorem log_average_speed_overwrites (avg_speed other_speed : R)
    (txt : string) (w : world) :
  exists w',
    log_average_speed_to_txt avg_speed txt w = (Ok tt, w')
    /\ w_fs w' !! txt
       = Some (Text (format_2f avg_speed +:+ " km/s" +:+ newline))
    /\ (forall p, p <> txt -> w_fs w' !! p = w_fs w !! p)
    /\ (do _ <- log_average_speed_to_txt other_speed txt ;;
        log_average_speed_to_txt avg_speed txt) w
       = (Ok tt, w').
Proof.
  eexists. split; [reflexivity |]. cbn [w_fs]. split; [| split].
  - apply lookup_insert_eq.
  - intros p Hp. apply lookup_insert_ne. auto.
  - unfold bind, log_average_speed_to_txt, write_text. cbn [w_fs].
    rewrite insert_insert_eq. reflexivity.
Qed.
